(** * FinLogBot: the ledger aggregation and validation logic of [bot.py]

    The bot reads ledger rows back from a spreadsheet and aggregates them
    ([summary], [monthly_breakdown_summary]) and validates and appends the
    record extracted from a chat message ([handle_message]).  This file
    embeds those three handlers and states the properties of the
    specification over them.

    Conventions of the embedding:
    - a Python [float] is an IEEE 754 binary64 value, [spec_float] with
      precision 53 and maximal exponent 1024, rounded to nearest even;
    - a Python [str] is a [string] holding its UTF-8 bytes, whose
      byte-wise lexicographic order is the code point order of [sorted];
    - a Python exception is a value of [exn] carried by the [res] monad; a
      [try]/[except] is a match on the result of the protected block;
    - the interpreter's functions on text ([lower], [strip], [float] of a
      string, [repr] of a float, [strptime], [strftime]) are the fields of
      the class [PyRuntime]: the general theorems hold for any such
      runtime, and [reference_runtime], their version for ASCII text,
      evaluates the examples. *)

From Stdlib Require Import ZArith String Ascii List Bool Lia.
From Stdlib Require Import Floats.SpecFloat.
From stdpp Require Import gmap strings list fin_maps sorting pretty.

Local Open Scope string_scope.
Local Open Scope list_scope.
Local Open Scope Z_scope.

(** ** Exceptions *)

Inductive exn :=
| ValueError
| TypeError
| AttributeError
| OverflowError
| KeyError
| APIError.

Inductive res (A : Type) :=
| Ok (a : A)
| Raise (e : exn).
Arguments Ok {A} a.
Arguments Raise {A} e.

Definition bind {A B} (c : res A) (k : A -> res B) : res B :=
  match c with
  | Ok a => k a
  | Raise e => Raise e
  end.

Notation "x <- c ;; k" := (bind c (fun x => k))
  (at level 100, c at next level, right associativity).

(** [for r in records: body], where an exception escaping the body ends the
    loop. *)
Fixpoint for_each {A S} (body : S -> A -> res S) (l : list A) (s : S) : res S :=
  match l with
  | [] => Ok s
  | x :: l' => s' <- body s x ;; for_each body l' s'
  end.

(** ** Floats *)

Module Float.

Definition float := spec_float.

Definition zero : float := S754_zero false.
Definition add : float -> float -> float := SFadd 53 1024.
Definition sub : float -> float -> float := SFsub 53 1024.
Definition leb : float -> float -> bool := SFleb.
Definition ltb : float -> float -> bool := SFltb.

Definition is_finite (f : float) : bool :=
  match f with S754_zero _ | S754_finite _ _ _ => true | _ => false end.

(** The nearest double of an integer; [None] when it is out of range. *)
Definition of_Z (z : Z) : option float :=
  match binary_normalize 53 1024 z 0 false with
  | S754_infinity _ => None
  | f => Some f
  end.

(** Left-to-right sum from [0.0], the value of [t = 0.0; t += a] ... *)
Definition sum (l : list float) : float := fold_left add l zero.

(** [n / d] rounded to the nearest integer, ties to even
    (for [0 <= n], [0 < d]). *)
Definition div_half_even (n d : Z) : Z :=
  let q := n / d in
  match (2 * (n mod d) ?= d) with
  | Lt => q
  | Gt => q + 1
  | Eq => if Z.even q then q else q + 1
  end.

(** [m * 2^e] in hundredths, correctly rounded. *)
Definition hundredths (m : positive) (e : Z) : Z :=
  if 0 <=? e then 100 * Z.pos m * 2 ^ e
  else div_half_even (100 * Z.pos m) (2 ^ (- e)).

Definition two_digits (n : Z) : string :=
  if n <? 10 then "0" +:+ pretty n else pretty n.

Definition fixed2 (s : bool) (h : Z) : string :=
  (if s then "-" else "") +:+ pretty (h / 100) +:+ "." +:+ two_digits (h mod 100).

(** [f"{x:.2f}"] *)
Definition format_2f (f : float) : string :=
  match f with
  | S754_nan => "nan"
  | S754_infinity s => if s then "-inf" else "inf"
  | S754_zero s => fixed2 s 0
  | S754_finite s m e => fixed2 s (hundredths m e)
  end.

End Float.

Abbreviation float := Float.float.

(** ** Strings *)

Definition NL : string := String "010"%char "".

(** The two string methods on ASCII text. *)
Module AsciiText.

Definition is_ascii_char (c : ascii) : bool := (N_of_ascii c <? 128)%N.

Fixpoint is_ascii (s : string) : bool :=
  match s with
  | "" => true
  | String c s' => is_ascii_char c && is_ascii s'
  end.

Definition lower_char (c : ascii) : ascii :=
  let n := N_of_ascii c in
  if ((65 <=? n) && (n <=? 90))%N then ascii_of_N (n + 32) else c.

(** [s.lower()]: the ASCII letters. *)
Fixpoint lower (s : string) : string :=
  match s with
  | "" => ""
  | String c s' => String (lower_char c) (lower s')
  end.

(** The ASCII characters for which [str.isspace] holds. *)
Definition is_space (c : ascii) : bool :=
  let n := N_of_ascii c in
  (((9 <=? n) && (n <=? 13)) || ((28 <=? n) && (n <=? 32)))%N.

Fixpoint lstrip (s : string) : string :=
  match s with
  | "" => ""
  | String c s' => if is_space c then lstrip s' else s
  end.

Fixpoint rstrip (s : string) : string :=
  match s with
  | "" => ""
  | String c s' =>
      match rstrip s' with
      | "" => if is_space c then "" else String c ""
      | t => String c t
      end
  end.

(** [s.strip()]: the ASCII blanks. *)
Definition strip (s : string) : string := rstrip (lstrip s).

End AsciiText.

(** ** Dates *)

Record datetime := {
  year : Z;
  month : Z;
  day : Z;
  hour : Z;
  minute : Z;
  second : Z
}.

(** ** The interpreter's conversions *)

Class PyRuntime := {
  (** [s.lower()] and [s.strip()] for a [str]; on ASCII text they are the
      functions of [AsciiText] *)
  lower : string -> string;
  strip : string -> string;
  lower_ascii s : AsciiText.is_ascii s = true -> lower s = AsciiText.lower s;
  strip_ascii s : AsciiText.is_ascii s = true -> strip s = AsciiText.strip s;
  (** [float(s)] for a [str]; [None] is [ValueError] *)
  float_of_str : string -> option float;
  (** [repr(x)] for a [float] *)
  float_repr : float -> string;
  (** [datetime.strptime(s, fmt)]; [None] is [ValueError] *)
  strptime : string -> string -> option datetime;
  (** [dt.strftime(fmt)] *)
  strftime : datetime -> string -> string
}.

(** ** Ledger rows, as [get_all_records] returns them *)

Inductive cell :=
| CInt (z : Z)
| CFloat (f : float)
| CStr (s : string).

Abbreviation row := (gmap string cell).

(** [r.get(k, d)] *)
Definition get {V} (r : gmap string V) (k : string) (d : V) : V :=
  default d (r !! k).

Section Aggregation.
Context {rt : PyRuntime}.

(** [float(v)] *)
Definition py_float (v : cell) : res float :=
  match v with
  | CInt z =>
      match Float.of_Z z with
      | Some f => Ok f
      | None => Raise OverflowError
      end
  | CFloat f => Ok f
  | CStr s =>
      match float_of_str s with
      | Some f => Ok f
      | None => Raise ValueError
      end
  end.

(** [str(v)] *)
Definition py_str (v : cell) : string :=
  match v with
  | CInt z => pretty z
  | CFloat f => float_repr f
  | CStr s => s
  end.

(** [not v] *)
Definition falsy (v : cell) : bool :=
  match v with
  | CInt z => z =? 0
  | CFloat (S754_zero _) => true
  | CFloat _ => false
  | CStr s => String.eqb s ""
  end.

(** *** /summary *)

Record totals := {
  total_expense : float;
  total_income : float
}.

Definition summary_row (t : totals) (r : row) : res totals :=
  let body :=
    amount <- py_float (get r "amount" (CInt 0)) ;;
    let record_type := lower (py_str (get r "type" (CStr ""))) in
    if String.eqb record_type "expense" then
      Ok {| total_expense := Float.add (total_expense t) amount;
            total_income := total_income t |}
    else if String.eqb record_type "income" then
      Ok {| total_expense := total_expense t;
            total_income := Float.add (total_income t) amount |}
    else Ok t in
  match body with
  | Raise ValueError => Ok t
  | other => other
  end.

Definition summary_totals (records : list row) : res totals :=
  for_each summary_row records
    {| total_expense := Float.zero; total_income := Float.zero |}.

Definition summary_msg (t : totals) : string :=
  "📊 Expense Summary:" +:+ NL +:+
  "Total Income: ₹" +:+ Float.format_2f (total_income t) +:+ NL +:+
  "Total Expense: ₹" +:+ Float.format_2f (total_expense t) +:+ NL +:+
  "Balance: ₹" +:+ Float.format_2f (Float.sub (total_income t) (total_expense t)).

(** What the handler passes to [bot.reply_to]: a rendered text, or a prefix
    followed by [str(e)] of the exception caught by the outer handler. *)
Inductive reply :=
| Text (s : string)
| ErrorText (prefix : string) (e : exn).

Definition summary (records : list row) : reply :=
  match summary_totals records with
  | Ok t => Text (summary_msg t)
  | Raise e => ErrorText "Error retrieving summary: " e
  end.

(** *** /breakdown *)

Record month_entry := {
  month_name : string;
  expenses : gmap string float;
  income : float;
  total_monthly_expense : float;
  total_monthly_income : float
}.

Definition new_month (name : string) : month_entry :=
  {| month_name := name;
     expenses := ∅;
     income := Float.zero;
     total_monthly_expense := Float.zero;
     total_monthly_income := Float.zero |}.

(** [entry['expenses'][category] = entry['expenses'].get(category, 0.0) + amount;
     entry['total_monthly_expense'] += amount] *)
Definition add_expense (category : string) (amount : float) (e : month_entry)
  : month_entry :=
  {| month_name := month_name e;
     expenses := <[category := Float.add (get (expenses e) category Float.zero) amount]>
                   (expenses e);
     income := income e;
     total_monthly_expense := Float.add (total_monthly_expense e) amount;
     total_monthly_income := total_monthly_income e |}.

(** [entry['income'] += amount; entry['total_monthly_income'] += amount] *)
Definition add_income (amount : float) (e : month_entry) : month_entry :=
  {| month_name := month_name e;
     expenses := expenses e;
     income := Float.add (income e) amount;
     total_monthly_expense := total_monthly_expense e;
     total_monthly_income := Float.add (total_monthly_income e) amount |}.

Definition timestamp_format : string := "%Y-%m-%d %H:%M:%S".

(** [r.get('category', 'N/A').strip() or 'Uncategorized']; [strip] is a
    method of [str] only. *)
Definition row_category (r : row) : res string :=
  match get r "category" (CStr "N/A") with
  | CStr s =>
      let c := strip s in
      Ok (if String.eqb c "" then "Uncategorized" else c)
  | _ => Raise AttributeError
  end.

(** [datetime.strptime(timestamp_str, "%Y-%m-%d %H:%M:%S")] *)
Definition parse_timestamp (timestamp_str : cell) : res datetime :=
  match timestamp_str with
  | CStr s =>
      match strptime s timestamp_format with
      | Some dt => Ok dt
      | None => Raise ValueError
      end
  | _ => Raise TypeError
  end.

(** The body of the loop over the records.  [r.get('timestamp')] is [None]
    when the column is missing; after [float(...)] the [isinstance] test of
    the guard always holds, so that the guard is
    [not timestamp_str or amount <= 0]. *)
Definition breakdown_row (monthly_data : gmap string month_entry) (r : row)
  : res (gmap string month_entry) :=
  let body :=
    let timestamp_str := r !! "timestamp" in
    category <- row_category r ;;
    amount <- py_float (get r "amount" (CInt 0)) ;;
    let typ := lower (py_str (get r "type" (CStr ""))) in
    match timestamp_str with
    | None => Ok monthly_data
    | Some ts =>
        if falsy ts || Float.leb amount Float.zero then Ok monthly_data
        else
          dt_object <- parse_timestamp ts ;;
          let month_year_key := strftime dt_object "%Y-%m" in
          let name := strftime dt_object "%B %Y" in
          let monthly_data :=
            match monthly_data !! month_year_key with
            | None => <[month_year_key := new_month name]> monthly_data
            | Some _ => monthly_data
            end in
          match monthly_data !! month_year_key with
          | None => Raise KeyError
          | Some entry =>
              if String.eqb typ "expense" then
                Ok (<[month_year_key := add_expense category amount entry]> monthly_data)
              else if String.eqb typ "income" then
                Ok (<[month_year_key := add_income amount entry]> monthly_data)
              else Ok monthly_data
          end
    end in
  match body with
  | Raise ValueError | Raise TypeError => Ok monthly_data
  | other => other
  end.

Definition breakdown_data (records : list row) : res (gmap string month_entry) :=
  for_each breakdown_row records ∅.

End Aggregation.

(** *** Rendering the breakdown *)

(** [sorted(d.keys())]; [String.le] is the order of [sorted] on [str]. *)
Definition sorted_keys {V} (d : gmap string V) : list string :=
  merge_sort String.le (map_to_list d).*1.

(** [sorted(d.items(), key=lambda item: item[0])] *)
Definition sorted_items {V} (d : gmap string V) : list (string * V) :=
  merge_sort (fun p q => String.le p.1 q.1) (map_to_list d).

(** The texts of a list, one after the other. *)
Definition join (l : list string) : string := foldr String.append "" l.

Definition category_line (item : string * float) : string :=
  "  - " +:+ item.1 +:+ ": ₹" +:+ Float.format_2f item.2 +:+ NL.

Definition expenses_block (e : month_entry) : string :=
  if decide (expenses e = ∅) then
    "💸 No expenses recorded for this month." +:+ NL
  else
    "💸 Expenses by Category:" +:+ NL +:+
    join (category_line <$> sorted_items (expenses e)).

Definition totals_block (e : month_entry) : string :=
  let monthly_balance := Float.sub (total_monthly_income e) (total_monthly_expense e) in
  "Total Monthly Expense: ₹" +:+ Float.format_2f (total_monthly_expense e) +:+ NL +:+
  "Monthly Balance: ₹" +:+ Float.format_2f monthly_balance +:+ NL +:+ NL.

(** The text added to [summary_msg] for one month. *)
Definition month_section (e : month_entry) : string :=
  "--- **" +:+ month_name e +:+ "** ---" +:+ NL +:+
  "💰 Income: ₹" +:+ Float.format_2f (income e) +:+ NL +:+
  expenses_block e +:+
  totals_block e.

Definition breakdown_header : string :=
  "📈 **Monthly Financial Breakdown** 📈" +:+ NL +:+ NL.

Definition breakdown_msg (monthly_data : gmap string month_entry) : res string :=
  for_each
    (fun summary_msg month_key =>
       match monthly_data !! month_key with
       | None => Raise KeyError
       | Some entry => Ok (summary_msg +:+ month_section entry)
       end)
    (sorted_keys monthly_data) breakdown_header.

Definition monthly_breakdown_summary {rt : PyRuntime} (records : list row) : reply :=
  let prefix := "Error generating breakdown summary: " in
  match records with
  | [] => Text "Your sheet is empty. No breakdown available."
  | _ =>
      match breakdown_data records with
      | Raise e => ErrorText prefix e
      | Ok monthly_data =>
          match sorted_keys monthly_data with
          | [] => Text "No valid financial records found to generate a breakdown."
          | _ =>
              match breakdown_msg monthly_data with
              | Raise e => ErrorText prefix e
              | Ok summary_msg => Text summary_msg
              end
          end
      end
  end.

(** ** Logging a message *)

(** The value [json.loads] builds from the oracle's answer. *)
#[warnings="-register-all"] Inductive json :=
| JNull
| JBool (b : bool)
| JInt (z : Z)
| JFloat (f : float)
| JStr (s : string)
| JArr (items : list json)
| JObj (fields : gmap string json).

(** [if parsed:] *)
Definition truthy (v : json) : bool :=
  match v with
  | JNull => false
  | JBool b => b
  | JInt z => negb (z =? 0)
  | JFloat (S754_zero _) => false
  | JFloat _ => true
  | JStr s => negb (String.eqb s "")
  | JArr items => match items with [] => false | _ => true end
  | JObj fields => negb (bool_decide (fields = ∅))
  end.

(** [parsed.get(k, d)]; only a [dict] has the method. *)
Definition json_get (parsed : json) (k : string) (d : json) : res json :=
  match parsed with
  | JObj fields => Ok (get fields k d)
  | _ => Raise AttributeError
  end.

(** [isinstance(amount, (int, float))]; [bool] is a subclass of [int]. *)
Definition is_int_or_float (amount : json) : bool :=
  match amount with
  | JBool _ | JInt _ | JFloat _ => true
  | _ => false
  end.

(** [amount <= 0], for an [int] or a [float]. *)
Definition le_zero (amount : json) : bool :=
  match amount with
  | JBool b => negb b
  | JInt z => z <=? 0
  | JFloat f => Float.leb f Float.zero
  | _ => false
  end.

(** The condition under which the handler refuses the record:
    [not isinstance(amount, (int, float)) or amount <= 0]. *)
Definition rejects (amount : json) : bool :=
  negb (is_int_or_float amount) || le_zero amount.

(** [f"{amount:.2f}"] for an accepted amount; an [int] is converted to
    [float] first. *)
Definition format_amount (amount : json) : res string :=
  match amount with
  | JFloat f => Ok (Float.format_2f f)
  | JInt z =>
      match Float.of_Z z with
      | Some f => Ok (Float.format_2f f)
      | None => Raise OverflowError
      end
  | JBool b => Ok (if b then "1.00" else "0.00")
  | JStr _ => Raise ValueError
  | _ => Raise TypeError
  end.

Inductive answer :=
| NotUnderstood
| InvalidAmount
| Logged (typ : string) (description : json) (amount : string)
| LogFailed (e : exn).

Definition invalid_amount_text : string :=
  "Sorry, I couldn't extract a valid positive amount from your message. Please try again.".

Definition not_understood_text : string :=
  "Sorry, I couldn't understand your message. Please try again with details like 'Bought snacks ₹150' or 'Received salary ₹50000'.".

(** The text sent for an answer; [None] where it embeds [str] of a value. *)
Definition fixed_text (a : answer) : option string :=
  match a with
  | NotUnderstood => Some not_understood_text
  | InvalidAmount => Some invalid_amount_text
  | _ => None
  end.

(** The ledger: the rows appended so far, oldest first. *)
Abbreviation ledger := (list (list json)).

(** How a run of the handler ends: a reply was sent, or an exception left
    the handler with no reply. *)
Inductive outcome :=
| Replied (a : answer)
| Uncaught (e : exn).

(** [sheet.append_row(values)]: the store takes the row, or the call raises
    and the ledger is as before. *)
Definition append_row (store_up : bool) (sheet : ledger) (values : list json)
  : res ledger :=
  if store_up then Ok (sheet ++ [values])%list else Raise APIError.

Section Handler.
Context {rt : PyRuntime}.

(** [v.lower()]; only a [str] has the method. *)
Definition json_lower (v : json) : res string :=
  match v with
  | JStr s => Ok (lower s)
  | _ => Raise AttributeError
  end.

(** [handle_message], given what [parse_expense] returned ([None] for its
    [None]), the clock's [timestamp] and whether the store is reachable. *)
Definition handle_message (timestamp : string) (store_up : bool)
    (parsed : option json) (sheet : ledger) : ledger * outcome :=
  match parsed with
  | None => (sheet, Replied NotUnderstood)
  | Some parsed =>
      if truthy parsed then
        let fields :=
          description <- json_get parsed "description" (JStr "N/A") ;;
          category <- json_get parsed "category" (JStr "N/A") ;;
          amount <- json_get parsed "amount" (JInt 0) ;;
          typ <- (t <- json_get parsed "type" (JStr "expense") ;; json_lower t) ;;
          Ok (description, category, amount, typ) in
        match fields with
        | Raise e => (sheet, Uncaught e)
        | Ok (description, category, amount, typ) =>
            if rejects amount then (sheet, Replied InvalidAmount)
            else
              match append_row store_up sheet
                      [JStr timestamp; description; category; amount; JStr typ] with
              | Raise e => (sheet, Replied (LogFailed e))
              | Ok sheet' =>
                  match format_amount amount with
                  | Raise e => (sheet', Replied (LogFailed e))
                  | Ok shown => (sheet', Replied (Logged typ description shown))
                  end
              end
        end
      else (sheet, Replied NotUnderstood)
  end.

End Handler.

(** ** A reference runtime

    Executable versions of the functions of [PyRuntime], for ASCII text:
    they are what the examples below are evaluated with. *)

Module Reference.
Import AsciiText.

Definition digit_of (c : ascii) : option Z :=
  let n := N_of_ascii c in
  if ((48 <=? n) && (n <=? 57))%N then Some (Z.of_N n - 48) else None.

Definition is_digit (c : ascii) : bool :=
  match digit_of c with Some _ => true | None => false end.

(** Drops the underscores of a numeral, each of which has to stand between
    two digits; [prev] tells whether the previous character was a digit. *)
Fixpoint ungroup (prev : bool) (s : string) : option string :=
  match s with
  | "" => Some ""
  | String "_" (String c s' as rest) =>
      if prev && is_digit c then ungroup false rest else None
  | String "_" "" => None
  | String c rest => String c <$> ungroup (is_digit c) rest
  end.

(** The longest prefix of digits: its value on top of [acc], the number of
    digits read on top of [n], and the rest. *)
Fixpoint read_digits (s : string) (acc n : Z) : Z * Z * string :=
  match s with
  | "" => (acc, n, "")
  | String c s' =>
      match digit_of c with
      | Some d => read_digits s' (10 * acc + d) (n + 1)
      | None => (acc, n, s)
      end
  end.

Definition read_sign (s : string) : bool * string :=
  match s with
  | String "-" s' => (true, s')
  | String "+" s' => (false, s')
  | _ => (false, s)
  end.

(** The double nearest to [(-1)^sign * m * 10^k], for [0 <= m]. *)
Definition decimal_to_float (sign : bool) (m k : Z) : float :=
  if m =? 0 then S754_zero sign
  else if 0 <=? k then
    binary_normalize 53 1024 (if sign then - (m * 10 ^ k) else m * 10 ^ k) 0 false
  else
    let '(q, e, l) := SFdiv_core_binary 53 1024 m 0 (10 ^ (- k)) 0 in
    binary_round_aux 53 1024 sign q e l.

Definition read_exponent (s : string) : option Z :=
  let '(neg, s1) := read_sign s in
  let '(x, nx, s2) := read_digits s1 0 0 in
  if (nx =? 0) || negb (String.eqb s2 "") then None
  else Some (if neg then - x else x).

Definition read_decimal (sign : bool) (s : string) : option float :=
  let '(i, ni, s1) := read_digits s 0 0 in
  let '(m, nf, s2) :=
    match s1 with
    | String "." s' => read_digits s' i 0
    | _ => (i, 0, s1)
    end in
  if ni + nf =? 0 then None
  else
    match s2 with
    | "" => Some (decimal_to_float sign m (- nf))
    | String c s3 =>
        if Ascii.eqb (lower_char c) "e" then
          x ← read_exponent s3; Some (decimal_to_float sign m (x - nf))
        else None
    end.

(** The ASCII blanks that [float] strips from both ends: those of
    [str.strip] without the separators [\x1c] to [\x1f]. *)
Definition is_blank (c : ascii) : bool :=
  let n := N_of_ascii c in
  (((9 <=? n) && (n <=? 13)) || (n =? 32))%N.

Fixpoint lstrip_blanks (s : string) : string :=
  match s with
  | "" => ""
  | String c s' => if is_blank c then lstrip_blanks s' else s
  end.

Fixpoint rstrip_blanks (s : string) : string :=
  match s with
  | "" => ""
  | String c s' =>
      match rstrip_blanks s' with
      | "" => if is_blank c then "" else String c ""
      | t => String c t
      end
  end.

Definition float_of_str (s : string) : option float :=
  let '(sign, s1) := read_sign (rstrip_blanks (lstrip_blanks s)) in
  let w := lower s1 in
  if String.eqb w "inf" || String.eqb w "infinity" then Some (S754_infinity sign)
  else if String.eqb w "nan" then Some S754_nan
  else s2 ← ungroup false s1; read_decimal sign s2.

(** *** [repr] of a float: the shortest decimal that reads back *)

(** The decimal point position [p] of [num / den]: the least [p] in
    [lo, lo + fuel] with [num / den < 10^p]. *)
Fixpoint decimal_point (fuel : nat) (p num den : Z) : Z :=
  match fuel with
  | O => p
  | S fuel' =>
      if (if 0 <=? p then num <? den * 10 ^ p else num * 10 ^ (- p) <? den)
      then p
      else decimal_point fuel' (p + 1) num den
  end.

(** [num / den] rounded to [n] significant digits: the digits as a number
    and the decimal point position. *)
Definition round_digits (n num den : Z) : Z * Z :=
  let p := decimal_point 700 (-330) num den in
  let k := p - n in
  let d :=
    if 0 <=? k then Float.div_half_even num (den * 10 ^ k)
    else Float.div_half_even (num * 10 ^ (- k)) den in
  if d =? 10 ^ n then (10 ^ (n - 1), p + 1) else (d, p).

Fixpoint shortest (fuel : nat) (n : Z) (m : positive) (e : Z) : Z * Z * Z :=
  let '(num, den) := if 0 <=? e then (Z.pos m * 2 ^ e, 1) else (Z.pos m, 2 ^ (- e)) in
  let '(d, p) := round_digits n num den in
  match fuel with
  | O => (d, n, p)
  | S fuel' =>
      match decimal_to_float false d (p - n) with
      | S754_finite _ m' e' =>
          if (m' =? m)%positive && (e' =? e) then (d, n, p)
          else shortest fuel' (n + 1) m e
      | _ => shortest fuel' (n + 1) m e
      end
  end.

Definition zeros (n : Z) : string :=
  String.concat "" (replicate (Z.to_nat n) "0").

Definition take (n : Z) (s : string) : string := substring 0 (Z.to_nat n) s.
Definition drop (n : Z) (s : string) : string :=
  substring (Z.to_nat n) (String.length s - Z.to_nat n) s.

(** The layout of [repr]: exponent form when the decimal point is far from
    the digits, positional form with at least one fractional digit
    otherwise. *)
Definition layout (ds : string) (n p : Z) : string :=
  if (p <=? -4) || (16 <? p) then
    let x := p - 1 in
    take 1 ds +:+ (if n =? 1 then "" else "." +:+ drop 1 ds) +:+ "e" +:+
    (if x <? 0 then "-" else "+") +:+ Float.two_digits (Z.abs x)
  else if p <=? 0 then "0." +:+ zeros (- p) +:+ ds
  else if p <? n then take p ds +:+ "." +:+ drop p ds
  else ds +:+ zeros (p - n) +:+ ".0".

Definition float_repr (f : float) : string :=
  match f with
  | S754_nan => "nan"
  | S754_infinity s => if s then "-inf" else "inf"
  | S754_zero s => if s then "-0.0" else "0.0"
  | S754_finite s m e =>
      let '(d, n, p) := shortest 16 1 m e in
      (if s then "-" else "") +:+ layout (pretty d) n p
  end.

(** *** [strftime] and [strptime] for the ledger's timestamps *)

Definition month_names : list string :=
  ["January"; "February"; "March"; "April"; "May"; "June"; "July";
   "August"; "September"; "October"; "November"; "December"].

Definition pad (width : nat) (n : Z) : string :=
  let s := pretty n in
  String.concat "" (replicate (width - String.length s) "0") +:+ s.

(** [%Y] is the year as the C library prints it, with no padding below
    1000; [%m] has two digits; [%B] is the month's name in the C locale. *)
Definition directive (c : ascii) (dt : datetime) : string :=
  match c with
  | "Y"%char => pretty (year dt)
  | "m"%char => pad 2 (month dt)
  | "B"%char => default "" (month_names !! Z.to_nat (month dt - 1))
  | _ => String "%" (String c "")
  end.

(** [dt.strftime(fmt)] for the directives the bot uses. *)
Fixpoint strftime (dt : datetime) (fmt : string) : string :=
  match fmt with
  | "" => ""
  | String "%" (String c rest) => directive c dt +:+ strftime dt rest
  | String c rest => String c (strftime dt rest)
  end.

(** One or two digits: the two-digit alternatives of the directive are
    tried first, then its one-digit alternative. *)
Definition scan (ok2 : Z -> Z -> bool) (ok1 : Z -> bool) (s : string)
  : option (Z * string) :=
  match s with
  | String a s1 =>
      a' ← digit_of a;
      match s1 with
      | String b s2 =>
          match digit_of b with
          | Some b' =>
              if ok2 a' b' then Some (10 * a' + b', s2)
              else if ok1 a' then Some (a', s1) else None
          | None => if ok1 a' then Some (a', s1) else None
          end
      | "" => if ok1 a' then Some (a', s1) else None
      end
  | "" => None
  end.

Definition scan_Y (s : string) : option (Z * string) :=
  match s with
  | String a (String b (String c (String d rest))) =>
      a' ← digit_of a; b' ← digit_of b; c' ← digit_of c; d' ← digit_of d;
      Some (1000 * a' + 100 * b' + 10 * c' + d', rest)
  | _ => None
  end.

Definition scan_m : string -> option (Z * string) :=
  scan (fun a b => ((a =? 1) && (b <=? 2)) || ((a =? 0) && (1 <=? b)))
       (fun a => 1 <=? a).

Definition scan_d (s : string) : option (Z * string) :=
  match
    scan (fun a b => ((a =? 3) && (b <=? 1)) || (a =? 1) || (a =? 2)
                     || ((a =? 0) && (1 <=? b)))
         (fun a => 1 <=? a) s
  with
  | Some r => Some r
  | None =>
      match s with
      | String " " (String b rest) =>
          b' ← digit_of b; if 1 <=? b' then Some (b', rest) else None
      | _ => None
      end
  end.

Definition scan_H : string -> option (Z * string) :=
  scan (fun a b => ((a =? 2) && (b <=? 3)) || (a <=? 1)) (fun _ => true).

Definition scan_M : string -> option (Z * string) :=
  scan (fun a _ => a <=? 5) (fun _ => true).

Definition scan_S : string -> option (Z * string) :=
  scan (fun a b => ((a =? 6) && (b <=? 1)) || (a <=? 5)) (fun _ => true).

Definition expect (c : ascii) (s : string) : option string :=
  match s with
  | String c' rest => if Ascii.eqb c c' then Some rest else None
  | "" => None
  end.

(** One or more blanks. *)
Definition blanks (s : string) : option string :=
  match s with
  | String c rest => if is_space c then Some (lstrip rest) else None
  | "" => None
  end.

Definition is_leap (y : Z) : bool :=
  ((y mod 4 =? 0) && negb (y mod 100 =? 0)) || (y mod 400 =? 0).

Definition days_in_month (y m : Z) : Z :=
  if m =? 2 then (if is_leap y then 29 else 28)
  else if (m =? 4) || (m =? 6) || (m =? 9) || (m =? 11) then 30
  else 31.

Definition strptime_ymd_hms (s : string) : option datetime :=
  '(y, s) ← scan_Y s; s ← expect "-" s;
  '(mo, s) ← scan_m s; s ← expect "-" s;
  '(d, s) ← scan_d s; s ← blanks s;
  '(h, s) ← scan_H s; s ← expect ":" s;
  '(mi, s) ← scan_M s; s ← expect ":" s;
  '(se, s) ← scan_S s;
  if String.eqb s "" && (1 <=? y) && (d <=? days_in_month y mo) && (se <=? 59)
  then Some {| year := y; month := mo; day := d;
               hour := h; minute := mi; second := se |}
  else None.

Definition strptime (s fmt : string) : option datetime :=
  if String.eqb fmt timestamp_format then strptime_ymd_hms s else None.

End Reference.

Definition reference_runtime : PyRuntime :=
  {| lower := AsciiText.lower;
     strip := AsciiText.strip;
     lower_ascii := fun _ _ => eq_refl;
     strip_ascii := fun _ _ => eq_refl;
     float_of_str := Reference.float_of_str;
     float_repr := Reference.float_repr;
     strptime := Reference.strptime;
     strftime := Reference.strftime |}.

(** ** Vocabulary of the statements *)

Section Vocabulary.
Context {rt : PyRuntime}.

(** [float(r.get('amount', 0))] and [str(r.get('type', '')).lower()], as
    both aggregation loops compute them. *)
Definition row_amount (r : row) : res float := py_float (get r "amount" (CInt 0)).
Definition row_kind (r : row) : string := lower (py_str (get r "type" (CStr ""))).

(** The amount is an integer that no double holds. *)
Definition overflows (r : row) : bool :=
  match row_amount r with
  | Raise OverflowError => true
  | _ => false
  end.

(** The amounts, in ledger order, of the rows of one kind whose amount
    parses. *)
Definition amounts_of (kind : string) (records : list row) : list float :=
  omap (fun r =>
          match row_amount r with
          | Ok a => if String.eqb (row_kind r) kind then Some a else None
          | Raise _ => None
          end) records.

(** The timestamp of the row is missing or [strptime] refuses it. *)
Definition timestamp_unparsable (r : row) : Prop :=
  match r !! "timestamp" with
  | Some (CStr s) => strptime s timestamp_format = None
  | _ => True
  end.

(** What a row brings to the breakdown when it passes every check of the
    loop body: month key, month label, category, amount and kind. *)
Definition survivor (r : row) : option (string * string * string * float * string) :=
  match row_category r, row_amount r, r !! "timestamp" with
  | Ok category, Ok amount, Some ts =>
      if falsy ts || Float.leb amount Float.zero then None
      else
        match parse_timestamp ts with
        | Ok dt =>
            Some (strftime dt "%Y-%m", strftime dt "%B %Y", category, amount, row_kind r)
        | Raise _ => None
        end
  | _, _, _ => None
  end.

(** The expense amount that a row brings to the month [key], and to the
    category [category] of that month. *)
Definition expense_at (key : string) (r : row) : option float :=
  match survivor r with
  | Some (k, _, _, a, kind) =>
      if String.eqb k key && String.eqb kind "expense" then Some a else None
  | None => None
  end.

Definition expense_under (key category : string) (r : row) : option float :=
  match survivor r with
  | Some (k, _, c, a, kind) =>
      if String.eqb k key && String.eqb kind "expense" && String.eqb c category
      then Some a else None
  | None => None
  end.

(** The expense amounts of a month, and of one of its categories, in ledger
    order. *)
Definition month_expenses (key : string) (records : list row) : list float :=
  omap (expense_at key) records.

Definition category_expenses (key category : string) (records : list row)
  : list float :=
  omap (expense_under key category) records.

(** The entry of a category in the mapping of a month: absent while no
    expense was recorded under it, then the float sum of its amounts. *)
Definition category_total (key category : string) (records : list row)
  : option float :=
  match category_expenses key category records with
  | [] => None
  | l => Some (Float.sum l)
  end.

(** What the bucket [e] of the month [key] holds after the loop went over
    [records], and what the table of months holds. *)
Definition sums_of (key : string) (records : list row) (e : month_entry) : Prop :=
  income e = total_monthly_income e
  /\ total_monthly_expense e = Float.sum (month_expenses key records)
  /\ forall c, expenses e !! c = category_total key c records.

Definition table_of (records : list row) (md : gmap string month_entry) : Prop :=
  forall key,
    match md !! key with
    | Some e => sums_of key records e
    | None => month_expenses key records = []
    end.

End Vocabulary.

(** The bucket of a month: the one in the table, or a fresh one. *)
Definition bucket (monthly_data : gmap string month_entry) (key name : string)
  : month_entry :=
  default (new_month name) (monthly_data !! key).

(** A ledger row with its five columns. *)
Definition mk_row (timestamp description category : string) (amount : cell)
    (type : string) : row :=
  <["timestamp" := CStr timestamp]> (<["description" := CStr description]>
  (<["category" := CStr category]> (<["amount" := amount]>
  (<["type" := CStr type]> ∅)))).

(** ** The extraction client *)

Module Oracle.

(** The exceptions that the body of [parse_expense] can meet; each of its
    four handlers returns [None]. *)
Inductive error :=
| HTTPError
| RequestException
| JSONDecodeError
| AttributeError
| KeyError
| IndexError
| TypeError.

Inductive attempt (A : Type) :=
| Done (a : A)
| Failed (e : error).
Arguments Done {A} a.
Arguments Failed {A} e.

Definition and_then {A B} (c : attempt A) (k : A -> attempt B) : attempt B :=
  match c with
  | Done a => k a
  | Failed e => Failed e
  end.

Notation "x <~ c ;; k" := (and_then c (fun x => k))
  (at level 100, c at next level, right associativity).

(** What [requests.post], [raise_for_status] and [response.json] leave: the
    decoded body, or the exception of a bad status, of the transport or of a
    body that is no JSON. *)
Inductive http_result :=
| Body (data : json)
| BadStatus
| NoAnswer.

Definition response_json (r : http_result) : attempt json :=
  match r with
  | Body data => Done data
  | BadStatus => Failed HTTPError
  | NoAnswer => Failed RequestException
  end.

(** [v.get(k)]: the value, or [None]; only a [dict] has the method. *)
Definition get_key (v : json) (k : string) : attempt json :=
  match v with
  | JObj fields => Done (get fields k JNull)
  | _ => Failed AttributeError
  end.

(** [v[k]] for a string [k]. *)
Definition item (v : json) (k : string) : attempt json :=
  match v with
  | JObj fields =>
      match fields !! k with
      | Some x => Done x
      | None => Failed KeyError
      end
  | _ => Failed TypeError
  end.

(** The number of bytes of the UTF-8 character that starts with [c]. *)
Definition char_width (c : ascii) : nat :=
  let n := N_of_ascii c in
  if (n <? 192)%N then 1%nat
  else if (n <? 224)%N then 2%nat
  else if (n <? 240)%N then 3%nat
  else 4%nat.

(** [v[0]]: the first item of a list, the first character of a string. *)
Definition first (v : json) : attempt json :=
  match v with
  | JArr (x :: _) => Done x
  | JArr [] => Failed IndexError
  | JStr (String c _ as s) => Done (JStr (substring 0 (char_width c) s))
  | JStr "" => Failed IndexError
  | JObj _ => Failed KeyError
  | _ => Failed TypeError
  end.

(** [data["candidates"][0]], [...["content"]] and [...["parts"][0]] *)
Definition candidate (data : json) : attempt json :=
  c <~ item data "candidates" ;; first c.

Definition content (data : json) : attempt json :=
  c <~ candidate data ;; item c "content".

Definition part (data : json) : attempt json :=
  c <~ content data ;; p <~ item c "parts" ;; first p.

(** The condition of the [if]: a chain of [and], cut at the first operand
    that is not truthy. *)
Definition has_text (data : json) : attempt bool :=
  if truthy data then
    a <~ get_key data "candidates" ;;
    if truthy a then
      b <~ (c <~ candidate data ;; get_key c "content") ;;
      if truthy b then
        c <~ (c <~ content data ;; get_key c "parts") ;;
        if truthy c then
          d <~ (p <~ part data ;; get_key p "text") ;;
          Done (truthy d)
        else Done false
      else Done false
    else Done false
  else Done false.

Section Client.
(** [json.loads] on a [str]; [None] when it raises. *)
Variable loads : string -> option json.

(** [json.loads(v)]; it takes a [str]. *)
Definition json_loads (v : json) : attempt json :=
  match v with
  | JStr s =>
      match loads s with
      | Some parsed => Done parsed
      | None => Failed JSONDecodeError
      end
  | _ => Failed TypeError
  end.

(** The [try] block of [parse_expense], from the answer of the request. *)
Definition parse_body (r : http_result) : attempt (option json) :=
  data <~ response_json r ;;
  ok <~ has_text data ;;
  if ok then
    content_json_str <~ (p <~ part data ;; item p "text") ;;
    parsed <~ json_loads content_json_str ;;
    Done (Some parsed)
  else Done None.

(** [parse_expense]: every handler returns [None]. *)
Definition parse_expense (r : http_result) : option json :=
  match parse_body r with
  | Done parsed => parsed
  | Failed _ => None
  end.

End Client.

(** The text that [parse_expense] decodes, read off a well-formed body. *)
Definition response_text (data : json) : option string :=
  match data with
  | JObj d =>
      match d !! "candidates" with
      | Some (JArr (JObj c :: _)) =>
          match c !! "content" with
          | Some (JObj ct) =>
              match ct !! "parts" with
              | Some (JArr (JObj p :: _)) =>
                  match p !! "text" with
                  | Some (JStr s) => if String.eqb s "" then None else Some s
                  | _ => None
                  end
              | _ => None
              end
          | _ => None
          end
      | _ => None
      end
  | _ => None
  end.

End Oracle.

(** [handle_message] with its call of [parse_expense]: from the answer of
    the oracle to the ledger and the reply. *)
Definition on_message {rt : PyRuntime} (loads : string -> option json)
    (timestamp : string) (store_up : bool) (r : Oracle.http_result)
    (sheet : ledger) : ledger * outcome :=
  handle_message timestamp store_up (Oracle.parse_expense loads r) sheet.

(** ** More vocabulary *)

Section Vocabulary2.
Context {rt : PyRuntime}.

(** The exception with which a row ends the loop of the breakdown. *)
Definition aborts (r : row) : option exn :=
  match row_category r with
  | Raise e => Some e
  | Ok _ =>
      match row_amount r with
      | Raise OverflowError => Some OverflowError
      | _ => None
      end
  end.

(** The exception with which the loop of the breakdown ends: that of the
    first row that has one. *)
Definition first_abort (records : list row) : option exn :=
  head (omap aborts records).

(** The month key of a row that passes the checks of the breakdown. *)
Definition month_of (r : row) : option string :=
  match survivor r with
  | Some (k, _, _, _, _) => Some k
  | None => None
  end.

(** The income amount that a row brings to the month [key], and the income
    amounts of a month in ledger order. *)
Definition income_at (key : string) (r : row) : option float :=
  match survivor r with
  | Some (k, _, _, a, kind) =>
      if String.eqb k key && negb (String.eqb kind "expense") && String.eqb kind "income"
      then Some a else None
  | None => None
  end.

Definition month_incomes (key : string) (records : list row) : list float :=
  omap (income_at key) records.

(** What the income field of every bucket holds after the loop went over
    [records]. *)
Definition income_of (records : list row) (md : gmap string month_entry) : Prop :=
  forall key,
    match md !! key with
    | Some e => income e = Float.sum (month_incomes key records)
    | None => month_incomes key records = []
    end.

(** The row that [handle_message] appends for a record, if it appends one. *)
Definition logged_row (timestamp : string) (parsed : option json)
  : option (list json) :=
  match parsed with
  | Some (JObj fields) =>
      match json_lower (get fields "type" (JStr "expense")) with
      | Ok typ =>
          let amount := get fields "amount" (JInt 0) in
          if rejects amount then None
          else Some [JStr timestamp;
                     get fields "description" (JStr "N/A");
                     get fields "category" (JStr "N/A");
                     amount;
                     JStr typ]
      | Raise _ => None
      end
  | _ => None
  end.

End Vocabulary2.

(** ** Properties of the loops *)

Lemma for_each_app {A S} (body : S -> A -> res S) (l1 l2 : list A) (s : S) :
  for_each body (l1 ++ l2) s = (s' <- for_each body l1 s ;; for_each body l2 s').
Proof.
  revert s. induction l1 as [|x l1 IH]; intros s; simpl; [reflexivity|].
  destruct (body s x); simpl; auto.
Qed.

Lemma for_each_snoc {A S} (body : S -> A -> res S) (l : list A) (x : A) (s : S) :
  for_each body (l ++ [x]) s = (s' <- for_each body l s ;; body s' x).
Proof.
  rewrite for_each_app. destruct (for_each body l s) as [s'|e]; simpl; [|reflexivity].
  destruct (body s' x); reflexivity.
Qed.

Lemma append_assoc (s t u : string) : (s +:+ t) +:+ u = s +:+ t +:+ u.
Proof.
  induction s as [|c s IH]; [reflexivity|].
  change (String c ((s +:+ t) +:+ u) = String c (s +:+ t +:+ u)).
  rewrite IH. reflexivity.
Qed.

Lemma append_empty_r (s : string) : s +:+ "" = s.
Proof.
  induction s as [|c s IH]; [reflexivity|].
  change (String c (s +:+ "") = String c s). rewrite IH. reflexivity.
Qed.

Section Summary.
Context {rt : PyRuntime}.

(** The loop body of [summary] on a row whose amount parses: the amount goes
    to the total of the row's kind, if it has one. *)
Lemma summary_row_parsed (t : totals) (r : row) (a : float) :
  row_amount r = Ok a ->
  summary_row t r =
    Ok (if String.eqb (row_kind r) "expense" then
          {| total_expense := Float.add (total_expense t) a;
             total_income := total_income t |}
        else if String.eqb (row_kind r) "income" then
          {| total_expense := total_expense t;
             total_income := Float.add (total_income t) a |}
        else t).
Proof.
  unfold row_amount, row_kind, summary_row. intros ->. simpl.
  destruct (String.eqb _ "expense"); [reflexivity|].
  destruct (String.eqb _ "income"); reflexivity.
Qed.

Lemma summary_row_unparsed (t : totals) (r : row) :
  row_amount r = Raise ValueError -> summary_row t r = Ok t.
Proof. unfold row_amount, summary_row. intros ->. reflexivity. Qed.

Lemma summary_row_overflow (t : totals) (r : row) :
  row_amount r = Raise OverflowError -> summary_row t r = Raise OverflowError.
Proof. unfold row_amount, summary_row. intros ->. reflexivity. Qed.

(** [float] of a cell gives a float or raises one of two exceptions. *)
Lemma row_amount_cases (r : row) :
  (exists a, row_amount r = Ok a) \/ row_amount r = Raise ValueError
  \/ row_amount r = Raise OverflowError.
Proof.
  unfold row_amount, py_float.
  destruct (get r "amount" (CInt 0)) as [z|f|s]; eauto.
  - destruct (Float.of_Z z); eauto.
  - destruct (float_of_str s); eauto.
Qed.

(** The loop of [summary], from any running totals. *)
Lemma summary_loop (records : list row) (t : totals) :
  for_each summary_row records t =
    if existsb overflows records then Raise OverflowError
    else Ok {| total_expense :=
                 fold_left Float.add (amounts_of "expense" records) (total_expense t);
               total_income :=
                 fold_left Float.add (amounts_of "income" records) (total_income t) |}.
Proof.
  revert t. induction records as [|r records IH]; intros t; simpl.
  - destruct t; reflexivity.
  - unfold overflows at 1.
    destruct (row_amount_cases r) as [[a Ha]|[Ha|Ha]].
    + rewrite (summary_row_parsed _ _ _ Ha), Ha. simpl. rewrite IH.
      destruct (existsb overflows records); [reflexivity|].
      destruct (String.eqb (row_kind r) "expense") eqn:He.
      * apply String.eqb_eq in He. rewrite He. reflexivity.
      * destruct (String.eqb (row_kind r) "income"); reflexivity.
    + rewrite (summary_row_unparsed _ _ Ha), Ha. simpl. apply IH.
    + rewrite (summary_row_overflow _ _ Ha), Ha. reflexivity.
Qed.

End Summary.

Section Breakdown.
Context {rt : PyRuntime}.

Lemma row_category_cases (r : row) :
  (exists c, row_category r = Ok c) \/ row_category r = Raise AttributeError.
Proof.
  unfold row_category. destruct (get r "category" (CStr "N/A")); eauto.
Qed.

(** The loop body of the breakdown, case by case: a row whose category is
    not a string or whose amount is too large an integer ends the loop with
    its exception; a row that passes every check changes the table as
    [survivor] says; any other row leaves the table as it is. *)
Lemma breakdown_row_spec (md : gmap string month_entry) (r : row) :
  breakdown_row md r =
    match row_category r with
    | Raise e => Raise e
    | Ok _ =>
        match row_amount r with
        | Raise OverflowError => Raise OverflowError
        | _ =>
            match survivor r with
            | None => Ok md
            | Some (key, name, category, amount, kind) =>
                let entry := bucket md key name in
                if String.eqb kind "expense" then
                  Ok (<[key := add_expense category amount entry]> md)
                else if String.eqb kind "income" then
                  Ok (<[key := add_income amount entry]> md)
                else Ok (<[key := entry]> md)
            end
        end
    end.
Proof.
  unfold breakdown_row, survivor, row_kind.
  destruct (row_category_cases r) as [[c ->]| ->]; [|reflexivity]. simpl.
  destruct (row_amount_cases r) as [[a Ha]|[Ha|Ha]];
    unfold row_amount in *; rewrite Ha; simpl; try reflexivity.
  destruct (r !! "timestamp") as [ts|]; [|reflexivity].
  destruct (falsy ts || Float.leb a Float.zero); [reflexivity|].
  unfold parse_timestamp.
  destruct ts as [z|f|s]; simpl; try reflexivity.
  destruct (strptime s timestamp_format) as [dt|]; simpl; [|reflexivity].
  set (key := strftime dt "%Y-%m"). set (name := strftime dt "%B %Y").
  unfold bucket.
  destruct (md !! key) as [e|] eqn:Hk; simpl.
  - rewrite Hk, (insert_id md key e Hk).
    destruct (String.eqb _ "expense"); [reflexivity|].
    destruct (String.eqb _ "income"); reflexivity.
  - rewrite lookup_insert_eq, !insert_insert_eq.
    destruct (String.eqb _ "expense"); [reflexivity|].
    destruct (String.eqb _ "income"); reflexivity.
Qed.

(** A row whose amount is zero or negative never reaches a bucket. *)
Lemma breakdown_skips_non_positive (r : row) (a : float) :
  row_amount r = Ok a ->
  Float.leb a Float.zero = true ->
  survivor r = None.
Proof.
  unfold survivor. intros -> Hle.
  destruct (row_category r); [|reflexivity].
  destruct (r !! "timestamp"); [|reflexivity].
  rewrite Hle, orb_true_r. reflexivity.
Qed.

(** Nor does a row whose timestamp is missing or does not parse. *)
Lemma unparsable_not_survivor (r : row) :
  timestamp_unparsable r -> survivor r = None.
Proof.
  unfold timestamp_unparsable, survivor. intros H.
  destruct (row_category r); [|reflexivity].
  destruct (row_amount r); [|reflexivity].
  destruct (r !! "timestamp") as [[z|f|s]|]; try reflexivity.
  - destruct (_ || _); reflexivity.
  - destruct (_ || _); reflexivity.
  - destruct (_ || _); [reflexivity|]. simpl. rewrite H. reflexivity.
Qed.

End Breakdown.

Section Buckets.
Context {rt : PyRuntime}.

Lemma sum_snoc (l : list float) (a : float) :
  Float.sum (l ++ [a]) = Float.add (Float.sum l) a.
Proof. unfold Float.sum. rewrite fold_left_app. reflexivity. Qed.

Lemma month_expenses_snoc (key : string) (records : list row) (r : row) :
  month_expenses key (records ++ [r]) =
    month_expenses key records ++ option_list (expense_at key r).
Proof.
  unfold month_expenses. rewrite omap_app. simpl.
  destruct (expense_at key r); reflexivity.
Qed.

Lemma category_expenses_snoc (key c : string) (records : list row) (r : row) :
  category_expenses key c (records ++ [r]) =
    category_expenses key c records ++ option_list (expense_under key c r).
Proof.
  unfold category_expenses. rewrite omap_app. simpl.
  destruct (expense_under key c r); reflexivity.
Qed.

(** The expenses under a category are among those of the month. *)
Lemma expense_under_none (key c : string) (r : row) :
  expense_at key r = None -> expense_under key c r = None.
Proof.
  unfold expense_at, expense_under.
  destruct (survivor r) as [[[[[k n] c'] a] kind]|]; [|reflexivity].
  destruct (String.eqb k key && String.eqb kind "expense"); [discriminate|reflexivity].
Qed.

Lemma category_expenses_nil (key c : string) (records : list row) :
  month_expenses key records = [] -> category_expenses key c records = [].
Proof.
  unfold month_expenses, category_expenses.
  induction records as [|r records IH]; simpl; [reflexivity|].
  destruct (expense_at key r) eqn:H; [discriminate|].
  rewrite (expense_under_none _ c _ H). exact IH.
Qed.

(** What an expense row brings to its month and to its category. *)
Lemma expense_at_survivor (r : row) (k name c kind : string) (a : float) :
  survivor r = Some (k, name, c, a, kind) ->
  (forall key, key <> k -> expense_at key r = None)
  /\ expense_at k r = (if String.eqb kind "expense" then Some a else None)
  /\ forall c', expense_under k c' r =
       if String.eqb kind "expense" && String.eqb c c' then Some a else None.
Proof.
  intros Hs. unfold expense_at, expense_under. rewrite Hs. repeat split.
  - intros key Hne. apply not_eq_sym, String.eqb_neq in Hne. rewrite Hne. reflexivity.
  - rewrite String.eqb_refl. reflexivity.
  - intros c'. rewrite String.eqb_refl. reflexivity.
Qed.

(** A row that brings no expense to a month leaves the sums of its bucket
    as they are. *)
Lemma sums_of_other (key : string) (records : list row) (r : row) (e : month_entry) :
  expense_at key r = None -> sums_of key records e -> sums_of key (records ++ [r]) e.
Proof.
  intros Hr (Hi & Ht & He). repeat split; [exact Hi| |].
  - rewrite month_expenses_snoc, Hr, app_nil_r. exact Ht.
  - intros c. unfold category_total.
    rewrite category_expenses_snoc, (expense_under_none _ c _ Hr), app_nil_r. apply He.
Qed.

Lemma sums_of_income (key : string) (records : list row) (a : float) (e : month_entry) :
  sums_of key records e -> sums_of key records (add_income a e).
Proof. intros (Hi & Ht & He). repeat split; simpl; congruence. Qed.

(** The value read by [entry['expenses'].get(category, 0.0)]. *)
Lemma category_total_get (key c : string) (records : list row) (e : month_entry) :
  expenses e !! c = category_total key c records ->
  get (expenses e) c Float.zero = Float.sum (category_expenses key c records).
Proof.
  unfold get, category_total. intros ->.
  destruct (category_expenses key c records); reflexivity.
Qed.

(** An expense row adds its amount to the total of its month and to the
    value of its category. *)
Lemma sums_of_expense (k : string) (records : list row) (r : row)
    (name c : string) (a : float) (e : month_entry) :
  survivor r = Some (k, name, c, a, "expense") ->
  sums_of k records e ->
  sums_of k (records ++ [r]) (add_expense c a e).
Proof.
  intros Hs (Hi & Ht & He).
  destruct (expense_at_survivor _ _ _ _ _ _ Hs) as (_ & Hat & Hunder).
  repeat split; simpl; [exact Hi| |].
  - rewrite month_expenses_snoc, Hat. simpl. rewrite sum_snoc, Ht. reflexivity.
  - intros c'. unfold category_total. rewrite category_expenses_snoc, Hunder. simpl.
    destruct (decide (c = c')) as [<-|Hne].
    + rewrite lookup_insert_eq, String.eqb_refl. simpl.
      rewrite (category_total_get k c records e (He c)), <- sum_snoc.
      destruct (category_expenses k c records); reflexivity.
    + rewrite lookup_insert_ne by exact Hne.
      apply String.eqb_neq in Hne. rewrite Hne. simpl. rewrite app_nil_r. apply He.
Qed.

(** The bucket that the loop body finds or creates for a month. *)
Lemma table_of_bucket (records : list row) (md : gmap string month_entry)
    (key name : string) :
  table_of records md -> sums_of key records (bucket md key name).
Proof.
  intros Hinv. specialize (Hinv key). unfold bucket.
  destruct (md !! key) as [e|]; simpl; [exact Hinv|].
  repeat split; simpl; [rewrite Hinv; reflexivity|].
  intros c. rewrite lookup_empty. unfold category_total.
  rewrite (category_expenses_nil _ c _ Hinv). reflexivity.
Qed.

(** Storing a bucket for the month of the row keeps the table right. *)
Lemma table_of_insert (records : list row) (md : gmap string month_entry) (r : row)
    (k : string) (e : month_entry) :
  (forall key, key <> k -> expense_at key r = None) ->
  table_of records md ->
  sums_of k (records ++ [r]) e ->
  table_of (records ++ [r]) (<[k := e]> md).
Proof.
  intros Hother Hinv He key. destruct (decide (key = k)) as [->|Hne].
  - rewrite lookup_insert_eq. exact He.
  - rewrite lookup_insert_ne by congruence. specialize (Hinv key).
    destruct (md !! key) as [e'|].
    + apply sums_of_other; auto.
    + rewrite month_expenses_snoc, (Hother key Hne), Hinv. reflexivity.
Qed.

(** The loop body keeps the table right. *)
Lemma table_of_row (records : list row) (md md' : gmap string month_entry) (r : row) :
  table_of records md ->
  breakdown_row md r = Ok md' ->
  table_of (records ++ [r]) md'.
Proof.
  intros Hinv. rewrite breakdown_row_spec.
  destruct (row_category r) as [c0|]; [|discriminate].
  assert (Hres : match survivor r with
                 | None => Ok md
                 | Some (key, name, category, amount, kind) =>
                     let entry := bucket md key name in
                     if String.eqb kind "expense" then
                       Ok (<[key := add_expense category amount entry]> md)
                     else if String.eqb kind "income" then
                       Ok (<[key := add_income amount entry]> md)
                     else Ok (<[key := entry]> md)
                 end = Ok md' -> table_of (records ++ [r]) md').
  { destruct (survivor r) as [[[[[k name] c] a] kind]|] eqn:Hs.
    - pose proof (table_of_bucket records md k name Hinv) as Hb.
      destruct (expense_at_survivor _ _ _ _ _ _ Hs) as (Hother & Hat & _).
      simpl. destruct (String.eqb kind "expense") eqn:Hexp.
      + apply String.eqb_eq in Hexp. subst kind. intros [= <-].
        apply table_of_insert; [exact Hother|exact Hinv|].
        eapply sums_of_expense; eauto.
      + destruct (String.eqb kind "income"); intros [= <-];
          (apply table_of_insert; [exact Hother|exact Hinv|]).
        * apply sums_of_income, sums_of_other; assumption.
        * apply sums_of_other; assumption.
    - intros [= <-]. intros key. specialize (Hinv key).
      assert (Hnone : expense_at key r = None) by (unfold expense_at; rewrite Hs; reflexivity).
      destruct (md !! key).
      + apply sums_of_other; assumption.
      + rewrite month_expenses_snoc, Hnone, Hinv. reflexivity. }
  destruct (row_amount r) as [a|[]]; try exact Hres; discriminate.
Qed.

(** The table of months after the whole ledger. *)
Lemma table_of_breakdown (records : list row) (md : gmap string month_entry) :
  breakdown_data records = Ok md -> table_of records md.
Proof.
  revert md. induction records as [|r records IH] using rev_ind; intros md.
  - intros [= <-] key. rewrite lookup_empty. reflexivity.
  - unfold breakdown_data. rewrite for_each_snoc.
    destruct (for_each breakdown_row records ∅) as [md0|] eqn:H0; [|discriminate].
    simpl. intros Hrow. eapply table_of_row; [|exact Hrow]. apply IH. exact H0.
Qed.

(** When every expense of the month is under one category, the expenses of
    the month are those of the category. *)
Lemma single_category (key c : string) (records : list row) :
  (forall c', c' <> c -> category_expenses key c' records = []) ->
  month_expenses key records = category_expenses key c records.
Proof.
  unfold month_expenses, category_expenses, expense_at, expense_under.
  induction records as [|r records IH]; intros H; [reflexivity|]. simpl in *.
  destruct (survivor r) as [[[[[k n] c'] a] kind]|]; [|apply IH, H].
  destruct (String.eqb k key && String.eqb kind "expense") eqn:Hk; simpl in *.
  - destruct (String.eqb c' c) eqn:Hc.
    + f_equal. apply IH. intros c2 Hc2. specialize (H c2 Hc2).
      destruct (String.eqb c' c2); [discriminate|exact H].
    + apply String.eqb_neq in Hc. specialize (H c' Hc).
      rewrite String.eqb_refl in H. discriminate.
  - apply IH. exact H.
Qed.

End Buckets.

Section Order.
Context {V : Type}.

#[local] Instance le_fst_trans : Transitive (fun p q : string * V => String.le p.1 q.1).
Proof. intros p q u Hpq Hqu. by etrans. Qed.

#[local] Instance le_fst_total : Total (fun p q : string * V => String.le p.1 q.1).
Proof. intros p q. apply (total String.le). Qed.

Lemma sorted_fst (l : list (string * V)) :
  StronglySorted (fun p q => String.le p.1 q.1) l -> StronglySorted String.le l.*1.
Proof.
  induction 1 as [|p l _ IH Hp]; simpl; constructor; [exact IH|].
  apply Forall_fmap. exact Hp.
Qed.

(** Ascending without repetition is strictly ascending. *)
Lemma sorted_strict (l : list string) :
  StronglySorted String.le l -> NoDup l -> StronglySorted (strict String.le) l.
Proof.
  induction 1 as [|x l _ IH Hx]; intros Hnd; [constructor|].
  apply NoDup_cons in Hnd as [Hnot Hnd]. constructor; [auto|].
  rewrite Forall_forall in Hx |- *. intros y Hy. split; [auto|].
  intros Hyx. assert (x = y) by (apply (anti_symm String.le); auto). congruence.
Qed.

(** [sorted] over the items of a [dict]: each item once, keys strictly
    ascending. *)
Lemma sorted_items_spec (d : gmap string V) :
  sorted_items d ≡ₚ map_to_list d
  /\ StronglySorted (strict String.le) (sorted_items d).*1.
Proof.
  assert (Hp : sorted_items d ≡ₚ map_to_list d) by apply merge_sort_Permutation.
  split; [exact Hp|].
  apply sorted_strict.
  - apply sorted_fst. unfold sorted_items. apply StronglySorted_merge_sort; apply _.
  - rewrite Hp. apply NoDup_fst_map_to_list.
Qed.

(** [sorted] over the keys gives the keys of [sorted] over the items. *)
Lemma sorted_keys_items (d : gmap string V) : sorted_keys d = (sorted_items d).*1.
Proof.
  apply (StronglySorted_unique String.le).
  - unfold sorted_keys. apply StronglySorted_merge_sort; apply _.
  - apply sorted_fst. unfold sorted_items. apply StronglySorted_merge_sort; apply _.
  - unfold sorted_keys, sorted_items. rewrite !merge_sort_Permutation. reflexivity.
Qed.

End Order.

(** The loop that renders the report, over any months of the table. *)
Lemma render_loop (md : gmap string month_entry) (l : list (string * month_entry))
    (msg : string) :
  (forall k e, (k, e) ∈ l -> md !! k = Some e) ->
  for_each
    (fun summary_msg month_key =>
       match md !! month_key with
       | None => Raise KeyError
       | Some entry => Ok (summary_msg +:+ month_section entry)
       end) l.*1 msg
  = Ok (msg +:+ join ((fun m => month_section m.2) <$> l)).
Proof.
  revert msg. induction l as [|[k e] l IH]; intros msg Hl; simpl.
  - rewrite append_empty_r. reflexivity.
  - rewrite (Hl k e) by (left). simpl. rewrite IH.
    + rewrite append_assoc. reflexivity.
    + intros k' e' H. apply Hl. right. exact H.
Qed.

Section Logging.
Context {rt : PyRuntime}.

(** A record with an accepted amount is a non-empty [dict]. *)
Lemma accepted_truthy (fields : gmap string json) :
  rejects (get fields "amount" (JInt 0)) = false -> truthy (JObj fields) = true.
Proof.
  intros H. simpl. apply negb_true_iff, bool_decide_eq_false. intros ->.
  unfold get in H. rewrite lookup_empty in H. discriminate.
Qed.

(** The handler on a record whose kind, once lower-cased, is [typ]. *)
Lemma handle_message_fields (timestamp : string) (store_up : bool)
    (fields : gmap string json) (typ : string) (sheet : ledger) :
  truthy (JObj fields) = true ->
  json_lower (get fields "type" (JStr "expense")) = Ok typ ->
  handle_message timestamp store_up (Some (JObj fields)) sheet =
    let description := get fields "description" (JStr "N/A") in
    let category := get fields "category" (JStr "N/A") in
    let amount := get fields "amount" (JInt 0) in
    if rejects amount then (sheet, Replied InvalidAmount)
    else
      match append_row store_up sheet
              [JStr timestamp; description; category; amount; JStr typ] with
      | Raise e => (sheet, Replied (LogFailed e))
      | Ok sheet' =>
          match format_amount amount with
          | Raise e => (sheet', Replied (LogFailed e))
          | Ok shown => (sheet', Replied (Logged typ description shown))
          end
      end.
Proof.
  intros Ht Hl. unfold handle_message. rewrite Ht.
  unfold json_get. simpl. rewrite Hl. reflexivity.
Qed.

(** Nothing is appended for a record whose amount the validator rejects,
    however the run of the handler ends. *)
Lemma rejected_ledger_unchanged (timestamp : string) (store_up : bool)
    (fields : gmap string json) (sheet : ledger) :
  rejects (get fields "amount" (JInt 0)) = true ->
  (handle_message timestamp store_up (Some (JObj fields)) sheet).1 = sheet.
Proof.
  intros Hr. unfold handle_message.
  destruct (truthy (JObj fields)); [|reflexivity].
  unfold json_get. simpl.
  destruct (json_lower (get fields "type" (JStr "expense"))); simpl; [|reflexivity].
  rewrite Hr. reflexivity.
Qed.

End Logging.

(** ** The claims of the specification *)

(** C1 (the defect): the ledger row [amount = -5, type = expense] is counted
    by the global summary, which shows a total expense of -5.00 and a
    balance of 5.00, where the summary of the ledger without the row shows
    0.00 for both; the breakdown builds no bucket from the row and reports
    no data.  The breakdown and the validator of [handle_message] refuse a
    non-positive amount, the loop of [summary] has no such test. *)
Theorem summary_counts_negative_amount :
  let r := mk_row "2024-05-01 10:00:00" "refund" "Rent" (CInt (-5)) "expense" in
  summary (rt := reference_runtime) [r] =
    Text ("📊 Expense Summary:" +:+ NL +:+ "Total Income: ₹0.00" +:+ NL +:+
          "Total Expense: ₹-5.00" +:+ NL +:+ "Balance: ₹5.00")
  /\ summary (rt := reference_runtime) [] =
    Text ("📊 Expense Summary:" +:+ NL +:+ "Total Income: ₹0.00" +:+ NL +:+
          "Total Expense: ₹0.00" +:+ NL +:+ "Balance: ₹0.00")
  /\ breakdown_data (rt := reference_runtime) [r] = Ok ∅
  /\ monthly_breakdown_summary (rt := reference_runtime) [r] =
    Text "No valid financial records found to generate a breakdown.".
Proof. vm_compute. repeat split; reflexivity. Qed.

(** C2: a row with a parseable amount and a valid kind whose timestamp does
    not parse is counted by the global summary (its amount is added to the
    total of its kind, wherever the row stands in the ledger) and reaches
    no bucket of the breakdown: the loop body leaves the table of months as
    it is, so the table is the one built from the ledger without the row
    (when the row's category is not a string the breakdown stops with the
    exception and has no bucket at all). *)
Theorem unparsable_timestamp_divergence {rt : PyRuntime}
    (r : row) (a : float) (before after : list row) :
  row_amount r = Ok a ->
  row_kind r = "expense" \/ row_kind r = "income" ->
  timestamp_unparsable r ->
  let credit t :=
    if String.eqb (row_kind r) "expense" then
      {| total_expense := Float.add (total_expense t) a;
         total_income := total_income t |}
    else
      {| total_expense := total_expense t;
         total_income := Float.add (total_income t) a |} in
  (forall t, summary_row t r = Ok (credit t))
  /\ summary_totals (before ++ r :: after) =
       (t <- summary_totals before ;; for_each summary_row after (credit t))
  /\ (forall md, breakdown_row md r = Ok md
                 \/ breakdown_row md r = Raise AttributeError)
  /\ (forall c, row_category r = Ok c ->
        (forall md, breakdown_row md r = Ok md)
        /\ breakdown_data (before ++ r :: after) = breakdown_data (before ++ after)).
Proof.
  intros Ha Hk Hts credit.
  assert (Hrow : forall t, summary_row t r = Ok (credit t)).
  { intros t. rewrite (summary_row_parsed _ _ _ Ha). unfold credit.
    destruct Hk as [-> | ->]; reflexivity. }
  assert (Hb : forall md, breakdown_row md r =
                 match row_category r with Ok _ => Ok md | Raise e => Raise e end).
  { intros md. rewrite breakdown_row_spec, Ha, (unparsable_not_survivor _ Hts).
    reflexivity. }
  split; [exact Hrow|]. split; [|split].
  - unfold summary_totals. rewrite for_each_app.
    destruct (for_each summary_row before _) as [t|e]; simpl; [|reflexivity].
    rewrite Hrow. reflexivity.
  - intros md. rewrite Hb.
    destruct (row_category_cases r) as [[c ->]| ->]; auto.
  - intros c Hc. split.
    + intros md. rewrite Hb, Hc. reflexivity.
    + unfold breakdown_data. rewrite !for_each_app.
      destruct (for_each breakdown_row before ∅) as [md|e]; simpl; [|reflexivity].
      rewrite Hb, Hc. reflexivity.
Qed.

(** C2 at a ledger: the second row has the timestamp [yesterday]. *)
Lemma unparsable_timestamp_divergence_witness :
  let r := mk_row "yesterday" "tea" "Groceries" (CInt 30) "expense" in
  let r0 := mk_row "2024-05-01 10:00:00" "rent" "Rent" (CInt 100) "expense" in
  summary_totals (rt := reference_runtime) ([r0] ++ r :: []) =
    Ok {| total_expense := S754_finite false 4573968371548160 (-45);
          total_income := Float.zero |}
  /\ breakdown_data (rt := reference_runtime) ([r0] ++ r :: []) =
       breakdown_data (rt := reference_runtime) ([r0] ++ []).
Proof.
  intros r r0.
  assert (Ha : row_amount (rt := reference_runtime) r
               = Ok (S754_finite false 8444249301319680 (-48)))
    by (vm_compute; reflexivity).
  assert (Hk : row_kind (rt := reference_runtime) r = "expense"
               \/ row_kind (rt := reference_runtime) r = "income")
    by (left; vm_compute; reflexivity).
  assert (Hts : timestamp_unparsable (rt := reference_runtime) r)
    by (vm_compute; reflexivity).
  destruct (unparsable_timestamp_divergence (rt := reference_runtime)
              r _ [r0] [] Ha Hk Hts) as (_ & Hs & _ & Hb).
  split.
  - rewrite Hs. vm_compute. reflexivity.
  - apply (Hb "Groceries"). vm_compute. reflexivity.
Defined.

(** C3 (counterexample): on a ledger whose only row has the integer amount
    [10^400], no double, [float] raises [OverflowError], which the loop does
    not catch: the reply is the error message of the outer handler and
    shows no totals. *)
Lemma summary_overflow_counterexample :
  let r := mk_row "2024-05-01 10:00:00" "typo" "Rent" (CInt (10 ^ 400)) "expense" in
  summary (rt := reference_runtime) [r] =
    ErrorText "Error retrieving summary: " OverflowError
  /\ forall t, summary (rt := reference_runtime) [r] <> Text (summary_msg t).
Proof.
  intros r.
  assert (H : summary (rt := reference_runtime) [r] =
              ErrorText "Error retrieving summary: " OverflowError)
    by (vm_compute; reflexivity).
  split; [exact H|]. intros t. rewrite H. discriminate.
Qed.

(** C3 (amended): for every sequence of ledger rows none of whose amounts is
    an integer beyond the range of a double, the global summary shows
    totalIncome, the float sum in ledger order of the amounts of the rows
    whose kind is "income" (case-insensitive), totalExpense, the same sum
    for "expense", and balance = totalIncome - totalExpense, each formatted
    to two decimal places; rows whose amount does not parse and rows of any
    other kind contribute to neither total.  When some amount is such an
    integer the reply is the error message instead.  For the ledger
    [{100, expense}, {50, income}] the totals are expense = 100.00,
    income = 50.00, balance = -50.00. *)
Theorem summary_spec :
  (forall (rt : PyRuntime) (records : list row),
     let totalExpense := Float.sum (amounts_of "expense" records) in
     let totalIncome := Float.sum (amounts_of "income" records) in
     summary records =
       if existsb overflows records then
         ErrorText "Error retrieving summary: " OverflowError
       else
         Text ("📊 Expense Summary:" +:+ NL +:+
               "Total Income: ₹" +:+ Float.format_2f totalIncome +:+ NL +:+
               "Total Expense: ₹" +:+ Float.format_2f totalExpense +:+ NL +:+
               "Balance: ₹" +:+ Float.format_2f (Float.sub totalIncome totalExpense)))
  /\ summary (rt := reference_runtime)
       [mk_row "2024-05-01 10:00:00" "rent" "Rent" (CInt 100) "expense";
        mk_row "2024-05-02 09:30:00" "gift" "Income" (CInt 50) "income"] =
     Text ("📊 Expense Summary:" +:+ NL +:+ "Total Income: ₹50.00" +:+ NL +:+
           "Total Expense: ₹100.00" +:+ NL +:+ "Balance: ₹-50.00").
Proof.
  split.
  - intros rt records. unfold summary, summary_totals. rewrite summary_loop.
    destruct (existsb overflows records); reflexivity.
  - vm_compute. reflexivity.
Qed.

(** C4 (counterexample): a month with an income of 50 and an expense of 20.
    The balance line of the report shows 30.00, the income minus the
    expense, and not the expense total 20.00, which is on the line above. *)
Lemma balance_line_counterexample :
  let records :=
    [mk_row "2024-05-01 10:00:00" "pay" "Income" (CInt 50) "income";
     mk_row "2024-05-03 12:00:00" "tea" "Groceries" (CInt 20) "expense"] in
  monthly_breakdown_summary (rt := reference_runtime) records =
    Text ("📈 **Monthly Financial Breakdown** 📈" +:+ NL +:+ NL +:+
          "--- **May 2024** ---" +:+ NL +:+
          "💰 Income: ₹50.00" +:+ NL +:+
          "💸 Expenses by Category:" +:+ NL +:+
          "  - Groceries: ₹20.00" +:+ NL +:+
          "Total Monthly Expense: ₹20.00" +:+ NL +:+
          "Monthly Balance: ₹30.00" +:+ NL +:+ NL)
  /\ exists e, breakdown_data (rt := reference_runtime) records = Ok {[ "2024-05" := e ]}
       /\ Float.format_2f (total_monthly_expense e) = "20.00"
       /\ totals_block e <>
            "Total Monthly Expense: ₹20.00" +:+ NL +:+
            "Monthly Balance: ₹" +:+ Float.format_2f (total_monthly_expense e) +:+ NL +:+ NL.
Proof.
  intros records. split; [vm_compute; reflexivity|].
  eexists. split; [vm_compute; reflexivity|].
  split; [vm_compute; reflexivity|].
  vm_compute. discriminate.
Qed.

(** C4 (amended): in the rendered breakdown the section of a month ends
    with the line of the month's expense total followed by the balance
    line, and the balance line shows the computed balance, the month's
    income total minus its expense total. *)
Theorem balance_line_shows_balance (e : month_entry) :
  exists above,
    month_section e =
      above +:+
      "Total Monthly Expense: ₹" +:+ Float.format_2f (total_monthly_expense e) +:+ NL +:+
      "Monthly Balance: ₹" +:+
        Float.format_2f (Float.sub (total_monthly_income e) (total_monthly_expense e)) +:+
        NL +:+ NL.
Proof.
  exists ("--- **" +:+ month_name e +:+ "** ---" +:+ NL +:+
          "💰 Income: ₹" +:+ Float.format_2f (income e) +:+ NL +:+ expenses_block e).
  unfold month_section, totals_block.
  rewrite !append_assoc. reflexivity.
Qed.

(** C5 (counterexample): the oracle answers with the kind "transfer", which
    is neither "expense" nor "income"; the row appended to the ledger
    carries the kind "transfer". *)
Lemma unrecognised_kind_counterexample :
  let parsed :=
    JObj (<["description" := JStr "moved to savings"]> (<["category" := JStr "Miscellaneous"]>
         (<["amount" := JInt 40]> (<["type" := JStr "Transfer"]> ∅)))) in
  handle_message (rt := reference_runtime) "2024-05-01 10:00:00" true (Some parsed) [] =
    ([[JStr "2024-05-01 10:00:00"; JStr "moved to savings"; JStr "Miscellaneous";
       JInt 40; JStr "transfer"]],
     Replied (Logged "transfer" (JStr "moved to savings") "40.00")).
Proof. vm_compute. reflexivity. Qed.

(** C5 (amended): for every extracted record that the logging path accepts
    and the store takes, the kind of the appended row is "expense" when the
    extracted kind is absent, and the lower-cased extracted kind, whatever
    it is, when it is a string. *)
Theorem logged_kind {rt : PyRuntime} (timestamp : string)
    (fields : gmap string json) (sheet : ledger) :
  rejects (get fields "amount" (JInt 0)) = false ->
  let logged typ :=
    (sheet ++ [[JStr timestamp;
                get fields "description" (JStr "N/A");
                get fields "category" (JStr "N/A");
                get fields "amount" (JInt 0);
                JStr typ]])%list in
  let sheet' := (handle_message timestamp true (Some (JObj fields)) sheet).1 in
  (fields !! "type" = None -> sheet' = logged "expense")
  /\ (forall s, fields !! "type" = Some (JStr s) -> sheet' = logged (lower s)).
Proof.
  intros Hacc logged sheet'.
  assert (H : forall typ,
             json_lower (get fields "type" (JStr "expense")) = Ok typ ->
             sheet' = logged typ).
  { intros typ Hl. unfold sheet'.
    rewrite (handle_message_fields _ _ _ typ _ (accepted_truthy _ Hacc) Hl).
    simpl. rewrite Hacc. simpl.
    destruct (format_amount _); reflexivity. }
  split.
  - intros Hn. apply H. unfold get. rewrite Hn. simpl.
    rewrite lower_ascii by reflexivity. reflexivity.
  - intros s Hs. apply H. unfold get. rewrite Hs. reflexivity.
Qed.

(** C5 at a record without a kind. *)
Lemma logged_kind_witness :
  let fields : gmap string json :=
    <["description" := JStr "coffee"]> (<["category" := JStr "Groceries & Home Needs"]>
    (<["amount" := JInt 150]> ∅)) in
  (handle_message (rt := reference_runtime)
     "2024-05-01 10:00:00" true (Some (JObj fields)) []).1 =
    [[JStr "2024-05-01 10:00:00"; JStr "coffee"; JStr "Groceries & Home Needs";
      JInt 150; JStr "expense"]].
Proof.
  intros fields.
  assert (Hacc : rejects (get fields "amount" (JInt 0)) = false)
    by (vm_compute; reflexivity).
  destruct (logged_kind (rt := reference_runtime)
              "2024-05-01 10:00:00" fields [] Hacc) as [H _].
  rewrite H; [|vm_compute; reflexivity].
  vm_compute. reflexivity.
Defined.

(** C6 (counterexample): the amount [Infinity], which [json.loads] reads as
    the float [inf], is not finite and passes the test: the row is appended
    and the reply shows the amount [inf].  [NaN] passes as well. *)
Lemma validator_accepts_infinity :
  let inf := JFloat (S754_infinity false) in
  let parsed :=
    JObj (<["description" := JStr "coffee"]> (<["category" := JStr "Miscellaneous"]>
         (<["amount" := inf]> (<["type" := JStr "expense"]> ∅)))) in
  Float.is_finite (S754_infinity false) = false
  /\ rejects inf = false
  /\ rejects (JFloat S754_nan) = false
  /\ handle_message (rt := reference_runtime) "2024-05-01 10:00:00" true (Some parsed) [] =
       ([[JStr "2024-05-01 10:00:00"; JStr "coffee"; JStr "Miscellaneous";
          inf; JStr "expense"]],
        Replied (Logged "expense" (JStr "coffee") "inf")).
Proof. vm_compute. repeat split; reflexivity. Qed.

(** C6 (amended): the validator accepts a record if and only if its amount
    is an [int] or a [float] (a [bool] counting as the [int] 0 or 1) that is
    not [<= 0]: an integer above zero, [True], a float above zero (plus
    infinity is one) or NaN.  Every finite number strictly greater than
    zero is accepted; every amount that is not a number, and every zero or
    negative one, is rejected. *)
Theorem validator_accepts_iff (amount : json) :
  rejects amount = false <->
    amount = JBool true
    \/ (exists z, amount = JInt z /\ 0 < z)
    \/ (exists f, amount = JFloat f
                  /\ (Float.ltb Float.zero f = true \/ f = S754_nan)).
Proof.
  split.
  - destruct amount as [|b|z|f|s|l|m]; simpl; try discriminate.
    + destruct b; [auto|discriminate].
    + unfold rejects; simpl. intros H. right; left. exists z. split; [reflexivity|lia].
    + unfold rejects; simpl. intros H. right; right. exists f. split; [reflexivity|].
      destruct f as [s|s| |s m e]; try (destruct s); simpl in *;
        try discriminate; auto.
  - intros [->|[(z & -> & Hz)|(f & -> & Hf)]]; [reflexivity| |].
    + unfold rejects; simpl. lia.
    + unfold rejects; simpl. destruct Hf as [Hf| ->]; [|reflexivity].
      destruct f as [s|s| |s m e]; try (destruct s); simpl in *;
        try discriminate; reflexivity.
Qed.

(** C7: when the handler reaches the validator (the record is a non-empty
    [dict] whose kind, if present, is a string) and the validator rejects
    the amount, the ledger is unchanged and the reply is the fixed
    validation-failure message, whether or not the store is reachable. *)
Theorem rejected_record_not_logged {rt : PyRuntime} (timestamp : string)
    (store_up : bool) (fields : gmap string json) (typ : string) (sheet : ledger) :
  truthy (JObj fields) = true ->
  json_lower (get fields "type" (JStr "expense")) = Ok typ ->
  rejects (get fields "amount" (JInt 0)) = true ->
  handle_message timestamp store_up (Some (JObj fields)) sheet =
    (sheet, Replied InvalidAmount)
  /\ fixed_text InvalidAmount =
       Some "Sorry, I couldn't extract a valid positive amount from your message. Please try again.".
Proof.
  intros Ht Hl Hr. split; [|reflexivity].
  rewrite (handle_message_fields _ _ _ typ _ Ht Hl). simpl. rewrite Hr. reflexivity.
Qed.

(** C7 at a record with the amount -5 and at one whose amount is a string. *)
Lemma rejected_record_not_logged_witness :
  let old := [[JStr "2024-04-30 08:00:00"; JStr "rent"; JStr "Rent"; JInt 900; JStr "expense"]] in
  let negative : gmap string json :=
    <["description" := JStr "refund"]> (<["category" := JStr "Miscellaneous"]>
    (<["amount" := JInt (-5)]> (<["type" := JStr "expense"]> ∅))) in
  let text : gmap string json :=
    <["description" := JStr "coffee"]> (<["amount" := JStr "150"]> ∅) in
  handle_message (rt := reference_runtime)
      "2024-05-01 10:00:00" true (Some (JObj negative)) old =
    (old, Replied InvalidAmount)
  /\ handle_message (rt := reference_runtime)
      "2024-05-01 10:00:00" true (Some (JObj text)) old =
    (old, Replied InvalidAmount).
Proof.
  intros old negative text. split.
  - apply (rejected_record_not_logged (rt := reference_runtime) _ _ negative "expense");
      vm_compute; reflexivity.
  - apply (rejected_record_not_logged (rt := reference_runtime) _ _ text "expense");
      vm_compute; reflexivity.
Defined.


(** The months 2025-01 and 2024-12 are reported with 2024-12 first. *)
Example month_order_example :
  sorted_keys (<["2025-01" := new_month "January 2025"]>
               (<["2024-12" := new_month "December 2024"]> ∅)) = ["2024-12"; "2025-01"].
Proof. vm_compute. reflexivity. Qed.

(** C9 (counterexample): a row of kind "income" whose category is two
    blanks.  Its category is "Uncategorized", and its amount goes to the
    income of its month: the mapping of categories stays empty and the
    report has no line for "Uncategorized". *)
Lemma blank_category_income_counterexample :
  let r := mk_row "2024-05-01 10:00:00" "gift" "  " (CInt 20) "income" in
  row_category (rt := reference_runtime) r = Ok "Uncategorized"
  /\ (exists e,
        breakdown_data (rt := reference_runtime) [r] = Ok {[ "2024-05" := e ]}
        /\ expenses e = ∅
        /\ Float.format_2f (income e) = "20.00")
  /\ monthly_breakdown_summary (rt := reference_runtime) [r] =
       Text ("📈 **Monthly Financial Breakdown** 📈" +:+ NL +:+ NL +:+
             "--- **May 2024** ---" +:+ NL +:+
             "💰 Income: ₹20.00" +:+ NL +:+
             "💸 No expenses recorded for this month." +:+ NL +:+
             "Total Monthly Expense: ₹0.00" +:+ NL +:+
             "Monthly Balance: ₹20.00" +:+ NL +:+ NL).
Proof.
  intros r. split; [vm_compute; reflexivity|]. split; [|vm_compute; reflexivity].
  eexists. repeat split; vm_compute; reflexivity.
Qed.

(** C9 (amended): a row of kind "expense" that passes the checks of the
    breakdown (a timestamp that is not empty and parses, an amount that is
    not [<= 0]) and whose category is blank once trimmed is filed under
    "Uncategorized": that is its category, and its amount is added to the
    entry of "Uncategorized" in the mapping of its month (started from 0.0
    when the entry is new) and to the month's expense total. *)
Theorem blank_category_uncategorized {rt : PyRuntime}
    (md : gmap string month_entry) (r : row) (s : string) (ts : cell)
    (dt : datetime) (a : float) :
  r !! "category" = Some (CStr s) ->
  strip s = "" ->
  row_amount r = Ok a ->
  Float.leb a Float.zero = false ->
  r !! "timestamp" = Some ts ->
  falsy ts = false ->
  parse_timestamp ts = Ok dt ->
  row_kind r = "expense" ->
  let key := strftime dt "%Y-%m" in
  let entry := bucket md key (strftime dt "%B %Y") in
  let entry' := add_expense "Uncategorized" a entry in
  row_category r = Ok "Uncategorized"
  /\ breakdown_row md r = Ok (<[key := entry']> md)
  /\ expenses entry' !! "Uncategorized" =
       Some (Float.add (get (expenses entry) "Uncategorized" Float.zero) a)
  /\ total_monthly_expense entry' = Float.add (total_monthly_expense entry) a.
Proof.
  intros Hc Hs Ha Hpos Hts Hf Hdt Hk key entry entry'.
  assert (Hcat : row_category r = Ok "Uncategorized").
  { unfold row_category, get. rewrite Hc. simpl. rewrite Hs. reflexivity. }
  split; [exact Hcat|].
  split; [|split; [apply lookup_insert_eq|reflexivity]].
  assert (Hsv : survivor r =
                Some (key, strftime dt "%B %Y", "Uncategorized", a, "expense")).
  { unfold survivor. rewrite Hcat, Ha, Hts, Hf, Hpos. simpl. rewrite Hdt, Hk.
    reflexivity. }
  rewrite breakdown_row_spec, Hcat, Ha, Hsv. reflexivity.
Qed.

(** C9 at the row whose category is two blanks. *)
Lemma blank_category_uncategorized_witness :
  let r := mk_row "2024-05-01 10:00:00" "tea" "  " (CInt 20) "expense" in
  exists e,
    breakdown_data (rt := reference_runtime) [r] = Ok {[ "2024-05" := e ]}
    /\ expenses e = {[ "Uncategorized" := S754_finite false 5629499534213120 (-48) ]}
    /\ Float.format_2f (S754_finite false 5629499534213120 (-48)) = "20.00".
Proof.
  intros r.
  destruct (blank_category_uncategorized (rt := reference_runtime) ∅ r "  "
              (CStr "2024-05-01 10:00:00")
              {| year := 2024; month := 5; day := 1; hour := 10; minute := 0; second := 0 |}
              (S754_finite false 5629499534213120 (-48)))
    as (_ & Hrow & _ & _); try (vm_compute; reflexivity).
  eexists. split; [|split].
  - unfold breakdown_data. simpl. rewrite Hrow. simpl. vm_compute. reflexivity.
  - vm_compute. reflexivity.
  - vm_compute. reflexivity.
Defined.

(** C10 (counterexample): one month with the expenses 10^16 under
    "Transportation" and 1 and 1 under "Groceries".  The running total is
    (10^16 + 1) + 1 = 10^16 in doubles, the mapping holds 10^16 and 2, and
    the sum of its values, in either order, is 10^16 + 2. *)
Lemma bucket_total_counterexample :
  let records :=
    [mk_row "2024-05-01 10:00:00" "car" "Transportation" (CInt (10 ^ 16)) "expense";
     mk_row "2024-05-02 10:00:00" "tea" "Groceries" (CInt 1) "expense";
     mk_row "2024-05-03 10:00:00" "tea" "Groceries" (CInt 1) "expense"] in
  exists e,
    breakdown_data (rt := reference_runtime) records = Ok {[ "2024-05" := e ]}
    /\ Float.format_2f (total_monthly_expense e) = "10000000000000000.00"
    /\ (Float.format_2f <$> expenses e) =
         <["Transportation" := "10000000000000000.00"]> {[ "Groceries" := "2.00" ]}
    /\ forall values, values ≡ₚ (map_to_list (expenses e)).*2 ->
         Float.sum values <> total_monthly_expense e
         /\ Float.format_2f (Float.sum values) = "10000000000000002.00".
Proof.
  intros records. eexists. split; [vm_compute; reflexivity|].
  split; [vm_compute; reflexivity|]. split; [vm_compute; reflexivity|].
  intros values Hp.
  assert (Hv : values = [S754_finite false 4503599627370496 (-51);
                         S754_finite false 5000000000000000 1]
               \/ values = [S754_finite false 5000000000000000 1;
                            S754_finite false 4503599627370496 (-51)]).
  { apply Permutation_length_2_inv. symmetry. rewrite Hp.
    vm_compute. first [reflexivity | apply perm_swap]. }
  destruct Hv as [-> | ->]; split; vm_compute; (discriminate || reflexivity).
Qed.

(** C10 (amended): for every monthly bucket that the breakdown builds over
    any sequence of ledger rows, the displayed income field equals the
    total monthly income; the total monthly expense is the float sum, in
    ledger order, of the expense amounts of the month, and every value of
    the category-to-amount mapping is the float sum, in ledger order, of the
    expense amounts of the month under that category.  When the mapping has
    a single category its value equals the total monthly expense. *)
Theorem bucket_sums {rt : PyRuntime} (records : list row)
    (monthly_data : gmap string month_entry) (key : string) (e : month_entry) :
  breakdown_data records = Ok monthly_data ->
  monthly_data !! key = Some e ->
  income e = total_monthly_income e
  /\ total_monthly_expense e = Float.sum (month_expenses key records)
  /\ (forall c v, expenses e !! c = Some v ->
        v = Float.sum (category_expenses key c records))
  /\ (forall c, expenses e !! c = None -> category_expenses key c records = [])
  /\ (forall c v, expenses e = {[ c := v ]} -> total_monthly_expense e = v).
Proof.
  intros Hdata Hkey. pose proof (table_of_breakdown _ _ Hdata key) as H.
  rewrite Hkey in H. destruct H as (Hi & Ht & He).
  assert (Hsome : forall c v, expenses e !! c = Some v ->
                    v = Float.sum (category_expenses key c records)).
  { intros c v Hc. rewrite He in Hc. unfold category_total in Hc.
    destruct (category_expenses key c records); [discriminate|]. congruence. }
  assert (Hnone : forall c, expenses e !! c = None ->
                    category_expenses key c records = []).
  { intros c Hc. rewrite He in Hc. unfold category_total in Hc.
    destruct (category_expenses key c records); [reflexivity|discriminate]. }
  repeat split; auto.
  intros c v Hsingle. rewrite Ht, (single_category key c).
  - symmetry. apply Hsome. rewrite Hsingle. apply lookup_singleton_eq.
  - intros c' Hc'. apply Hnone. rewrite Hsingle. apply lookup_singleton_ne. congruence.
Qed.

(** C10 at a month with two expenses under one category and an income. *)
Lemma bucket_sums_witness :
  let records :=
    [mk_row "2024-05-01 10:00:00" "tea" "Groceries" (CInt 20) "expense";
     mk_row "2024-05-15 09:00:00" "rice" "Groceries" (CInt 30) "expense";
     mk_row "2024-05-20 09:00:00" "pay" "Income" (CStr "1200.50") "income"] in
  exists e,
    breakdown_data (rt := reference_runtime) records = Ok {[ "2024-05" := e ]}
    /\ income e = total_monthly_income e
    /\ total_monthly_expense e =
         Float.sum (month_expenses (rt := reference_runtime) "2024-05" records)
    /\ Float.format_2f (income e) = "1200.50"
    /\ Float.format_2f (total_monthly_expense e) = "50.00"
    /\ (Float.format_2f <$> expenses e) = {[ "Groceries" := "50.00" ]}.
Proof.
  intros records. eexists. split; [vm_compute; reflexivity|].
  match goal with
  | |- income ?e = _ /\ _ =>
      destruct (bucket_sums (rt := reference_runtime) records
                  {[ "2024-05" := e ]} "2024-05" e) as (Hi & Ht & _);
      [vm_compute; reflexivity|vm_compute; reflexivity|]
  end.
  split; [exact Hi|]. split; [exact Ht|].
  repeat split; vm_compute; reflexivity.
Defined.

(** ** Further properties *)

Section Client.
Variable loads : string -> option json.

Lemma truthy_get (d : gmap string json) (k : string) :
  truthy (get d k JNull) = true -> d !! k = Some (get d k JNull).
Proof. unfold get. destruct (d !! k); [reflexivity|discriminate]. Qed.

Lemma truthy_dict (d : gmap string json) (k : string) (v : json) :
  d !! k = Some v -> truthy (JObj d) = true.
Proof.
  intros H. simpl. apply negb_true_iff, bool_decide_eq_false. intros ->.
  rewrite lookup_empty in H. discriminate.
Qed.

(** [parse_expense] gives a record exactly when the body of the answer
    is a [dict] whose ["candidates"] is a list that starts with a [dict],
    whose ["content"] is a [dict], whose ["parts"] is a list that starts
    with a [dict], whose ["text"] is a non-empty string that [json.loads]
    accepts; the record is what [json.loads] reads from that text.  Every
    other body, a bad status and a failed request give [None]: no exception
    of the navigation leaves the function. *)
Lemma parse_expense_text (r : Oracle.http_result) :
  Oracle.parse_expense loads r =
    match r with
    | Oracle.Body data => s ← Oracle.response_text data; loads s
    | _ => None
    end.
Proof.
  destruct r as [data| |]; [|reflexivity|reflexivity].
  unfold Oracle.parse_expense, Oracle.parse_body, Oracle.has_text,
    Oracle.part, Oracle.content, Oracle.candidate, Oracle.response_text.
  simpl.
  destruct (truthy data) eqn:Hd; [|destruct data; try reflexivity; simpl in Hd].
  2: { apply negb_false_iff, bool_decide_eq_true in Hd. subst.
       rewrite lookup_empty. reflexivity. }
  destruct data as [|b|z|f|s|l|d]; try reflexivity. simpl.
  destruct (truthy (get d "candidates" JNull)) eqn:Ha.
  2: { unfold get in Ha. destruct (d !! "candidates") as [a|]; [|reflexivity].
       simpl in Ha. destruct a as [|b|z|f|s|[|x l]|c]; try reflexivity; try discriminate;
       repeat case_match; simplify_eq/=; done. }
  rewrite (truthy_get _ _ Ha). unfold get in *.
  destruct (d !! "candidates") as [a|]; [|discriminate]. simpl in *.
  destruct a as [|b|z|f|s|[|x l]|c]; try reflexivity; try discriminate.
  { destruct s; [discriminate|reflexivity]. }
  simpl. destruct x as [|b|z|f|s|l'|c]; try reflexivity. simpl.
  unfold get. destruct (c !! "content") as [ct|] eqn:Hc; simpl; [|reflexivity].
  destruct (truthy ct) eqn:Hct.
  2: { destruct ct as [|b|z|f|s|l'|ct]; try reflexivity. simpl in Hct.
       apply negb_false_iff, bool_decide_eq_true in Hct. subst.
       rewrite lookup_empty. reflexivity. }
  destruct ct as [|b|z|f|s|l'|ct]; try reflexivity. simpl.
  unfold get. destruct (ct !! "parts") as [ps|] eqn:Hp; simpl; [|reflexivity].
  destruct (truthy ps) eqn:Hps.
  2: { destruct ps as [|b|z|f|s|[|x' l']|ps]; try reflexivity; discriminate. }
  destruct ps as [|b|z|f|s|[|x' l']|ps]; try reflexivity; try discriminate.
  { destruct s; [discriminate|reflexivity]. }
  simpl. destruct x' as [|b|z|f|s|l''|p]; try reflexivity. simpl.
  unfold get. destruct (p !! "text") as [t|] eqn:Ht; simpl; [|reflexivity].
  destruct (truthy t) eqn:Htt.
  2: { destruct t as [|b|z|f|s|l''|t]; try reflexivity. simpl in Htt.
       apply negb_false_iff in Htt. rewrite Htt. reflexivity. }
  destruct t as [|b|z|f|s|l''|t]; try reflexivity. simpl in *.
  apply negb_true_iff in Htt. rewrite Htt. simpl.
  destruct (loads s); reflexivity.
Qed.

(** X1: [parse_expense] returns what [json.loads] reads from the text
    [data["candidates"][0]["content"]["parts"][0]["text"]] when the body has
    that shape, with dicts and lists where the path needs them and a
    non-empty string at its end, and the text decodes; on every other body,
    on a bad status and on a failed request it returns [None], and no
    exception leaves it. *)
Theorem parse_expense_reads_text (r : Oracle.http_result) :
  Oracle.parse_expense loads r =
    match r with
    | Oracle.Body data => s ← Oracle.response_text data; loads s
    | _ => None
    end.
Proof. apply parse_expense_text. Qed.

End Client.

Section Handling.
Context {rt : PyRuntime}.

(** What [handle_message] does to the ledger. *)
Lemma handle_message_ledger (timestamp : string) (store_up : bool)
    (parsed : option json) (sheet : ledger) :
  (handle_message timestamp store_up parsed sheet).1 =
    match logged_row timestamp parsed with
    | Some values => if store_up then sheet ++ [values] else sheet
    | None => sheet
    end.
Proof.
  destruct parsed as [p|]; [|reflexivity].
  unfold handle_message, logged_row.
  destruct p as [|b|z|f|s|l|fields]; simpl; try reflexivity;
    try (match goal with |- context [if ?c then _ else _] => destruct c end; reflexivity).
  destruct (bool_decide (fields = ∅)) eqn:He; simpl.
  - apply bool_decide_eq_true in He. subst. unfold get. rewrite !lookup_empty.
    reflexivity.
  - destruct (json_lower (get fields "type" (JStr "expense"))) as [typ|e]; simpl;
      [|reflexivity].
    destruct (rejects (get fields "amount" (JInt 0))); [reflexivity|].
    destruct store_up; simpl; [|reflexivity].
    destruct (format_amount _); reflexivity.
Qed.

(** An amount that passes the validator is shown, unless it is an integer
    that no double holds. *)
Lemma format_accepted (amount : json) (e : exn) :
  rejects amount = false ->
  format_amount amount = Raise e ->
  e = OverflowError /\ exists z, amount = JInt z /\ 0 < z /\ Float.of_Z z = None.
Proof.
  destruct amount as [|b|z|f|s|l|m]; try discriminate.
  unfold rejects. simpl. intros Hz. destruct (Float.of_Z z) eqn:Hf; [discriminate|].
  intros [= <-]. split; [reflexivity|]. exists z. repeat split; [lia|exact Hf].
Qed.

End Handling.

(** X2: whatever the oracle returned and whether or not the store is
    reachable, [handle_message] leaves the rows of the ledger in place and
    appends at most one row; an appended row has the five columns timestamp,
    description, category, amount and kind, with an amount that the
    validator accepts, and the store took it. *)
Theorem handler_appends_at_most_one {rt : PyRuntime} (timestamp : string)
    (store_up : bool) (parsed : option json) (sheet : ledger) :
  let sheet' := (handle_message timestamp store_up parsed sheet).1 in
  sheet' = sheet
  \/ exists description category amount typ,
       sheet' = sheet ++ [[JStr timestamp; description; category; amount; JStr typ]]
       /\ rejects amount = false
       /\ store_up = true.
Proof.
  intros sheet'. unfold sheet'. rewrite handle_message_ledger. unfold logged_row.
  destruct parsed as [[| | | | | |fields]|]; auto.
  destruct (json_lower _) as [typ|]; auto.
  destruct (rejects _) eqn:Hr; auto.
  destruct store_up; auto.
  right. eexists _, _, _, _. repeat split. exact Hr.
Qed.

(** X3: the reply tells what happened to the ledger, with one exception.
    After the success reply the row is in the ledger, with the kind and the
    description that the reply shows; after "couldn't understand", after
    "couldn't extract a valid positive amount", after the failure of the
    store and when the handler leaves with an exception the ledger is as it
    was.  The exception: when the amount cannot be formatted (an integer
    that no double holds) the row is appended and the reply is the failure
    message. *)
Theorem reply_tells_ledger {rt : PyRuntime} (timestamp : string)
    (store_up : bool) (parsed : option json) (sheet : ledger) :
  let sheet' := (handle_message timestamp store_up parsed sheet).1 in
  match (handle_message timestamp store_up parsed sheet).2 with
  | Replied (Logged typ description shown) =>
      exists category amount,
        sheet' = sheet ++ [[JStr timestamp; description; category; amount; JStr typ]]
        /\ format_amount amount = Ok shown
  | Replied (LogFailed APIError) => sheet' = sheet /\ store_up = false
  | Replied (LogFailed e) =>
      e = OverflowError
      /\ exists description category z typ,
           sheet' = sheet ++ [[JStr timestamp; description; category; JInt z; JStr typ]]
           /\ Float.of_Z z = None
  | _ => sheet' = sheet
  end.
Proof.
  unfold handle_message.
  destruct parsed as [p|]; [|reflexivity].
  destruct (truthy p) eqn:Ht; [|reflexivity].
  destruct p as [|b|z|f|s|l|fields]; try reflexivity.
  unfold json_get. simpl.
  destruct (json_lower (get fields "type" (JStr "expense"))) as [typ|e]; simpl;
    [|reflexivity].
  destruct (rejects (get fields "amount" (JInt 0))) eqn:Hr; [reflexivity|].
  destruct store_up; simpl; [|auto].
  destruct (format_amount (get fields "amount" (JInt 0))) as [shown|e] eqn:Hf; simpl.
  - eexists _, _. split; [reflexivity|exact Hf].
  - destruct (format_accepted _ _ Hr Hf) as (-> & z & Hz & _ & Hnone).
    split; [reflexivity|]. rewrite Hz. eexists _, _, z, _. split; [reflexivity|exact Hnone].
Qed.

(** X4: an accepted integer amount that is beyond the range of a double is
    appended to the ledger, and the reply is the failure message of the
    logging step: formatting the amount for the success reply raises
    [OverflowError] after [append_row] returned. *)
Theorem logged_without_confirmation {rt : PyRuntime} (timestamp : string)
    (fields : gmap string json) (z : Z) (typ : string) (sheet : ledger) :
  fields !! "amount" = Some (JInt z) ->
  0 < z ->
  Float.of_Z z = None ->
  json_lower (get fields "type" (JStr "expense")) = Ok typ ->
  handle_message timestamp true (Some (JObj fields)) sheet =
    (sheet ++ [[JStr timestamp;
                get fields "description" (JStr "N/A");
                get fields "category" (JStr "N/A");
                JInt z;
                JStr typ]],
     Replied (LogFailed OverflowError)).
Proof.
  intros Ha Hz Hf Hl.
  assert (Hamt : get fields "amount" (JInt 0) = JInt z) by (unfold get; rewrite Ha; reflexivity).
  rewrite (handle_message_fields _ _ _ typ _ (truthy_dict _ _ _ Ha) Hl). simpl.
  rewrite Hamt. unfold rejects. simpl.
  destruct (z <=? 0) eqn:Hle; [lia|]. rewrite Hf. reflexivity.
Qed.

(** X4 at the amount [10^400]. *)
Lemma logged_without_confirmation_witness :
  let fields : gmap string json :=
    <["description" := JStr "villa"]> (<["amount" := JInt (10 ^ 400)]> ∅) in
  handle_message (rt := reference_runtime)
      "2024-05-01 10:00:00" true (Some (JObj fields)) [] =
    ([[JStr "2024-05-01 10:00:00"; JStr "villa"; JStr "N/A"; JInt (10 ^ 400);
       JStr "expense"]],
     Replied (LogFailed OverflowError)).
Proof.
  intros fields.
  apply (logged_without_confirmation (rt := reference_runtime)
           "2024-05-01 10:00:00" fields (10 ^ 400) "expense" []);
    vm_compute; reflexivity.
Defined.

(** X5: the handler leaves with an exception, and the user gets no reply,
    exactly when the value returned by the oracle is truthy and is either
    no [dict] or a [dict] whose ["type"] is present and is no string; the
    exception is [AttributeError] and the ledger is as it was. *)
Theorem no_reply_iff {rt : PyRuntime} (timestamp : string) (store_up : bool)
    (parsed : option json) (sheet : ledger) (e : exn) :
  (handle_message timestamp store_up parsed sheet).2 = Uncaught e <->
    e = AttributeError
    /\ exists p, parsed = Some p /\ truthy p = true
       /\ match p with
          | JObj fields =>
              exists v, fields !! "type" = Some v /\ forall s, v <> JStr s
          | _ => True
          end.
Proof.
  unfold handle_message. split.
  - destruct parsed as [p|]; [|discriminate].
    destruct (truthy p) eqn:Ht; [|discriminate].
    destruct p as [|b|z|f|s|l|fields]; simpl; try (intros [= <-]; eauto 6).
    unfold json_get, get. simpl.
    destruct (fields !! "type") as [v|] eqn:Hv; simpl.
    + destruct v as [|b|z|f|s|l|m]; simpl;
        try (intros [= <-]; split; [reflexivity|];
             eexists; split; [reflexivity|]; split; [exact Ht|];
             eexists; split; [exact Hv|]; intros ?; discriminate).
      destruct (rejects _); [discriminate|].
      destruct (append_row _ _ _); [|discriminate].
      destruct (format_amount _); discriminate.
    + destruct (rejects _); [discriminate|].
      destruct (append_row _ _ _); [|discriminate].
      destruct (format_amount _); discriminate.
  - intros (-> & p & -> & Ht & Hp). rewrite Ht.
    destruct p as [|b|z|f|s|l|fields]; try reflexivity.
    destruct Hp as (v & Hv & Hns). unfold json_get, get. simpl. rewrite Hv. simpl.
    destruct v as [|b|z|f|s|l|m]; try reflexivity.
    exfalso. apply (Hns s). reflexivity.
Qed.

(** X6: when the oracle's answer holds no record (a bad status, a failed
    request, a body without the text, or a text that [json.loads] refuses)
    the reply is "couldn't understand" and the ledger is as it was. *)
Theorem no_record_not_understood {rt : PyRuntime} (loads : string -> option json)
    (timestamp : string) (store_up : bool) (r : Oracle.http_result) (sheet : ledger) :
  (forall data s, r = Oracle.Body data -> Oracle.response_text data = Some s ->
     loads s = None) ->
  on_message loads timestamp store_up r sheet = (sheet, Replied NotUnderstood).
Proof.
  intros H. unfold on_message. rewrite parse_expense_text.
  destruct r as [data| |]; try reflexivity.
  destruct (Oracle.response_text data) as [s|] eqn:Hs; simpl; [|reflexivity].
  rewrite (H data s eq_refl Hs). reflexivity.
Qed.

(** X6 at a bad status and at a body whose list of candidates is empty. *)
Lemma no_record_not_understood_witness :
  let old := [[JStr "2024-04-30 08:00:00"; JStr "rent"; JStr "Rent"; JInt 900; JStr "expense"]] in
  let empty := Oracle.Body (JObj {[ "candidates" := JArr [] ]}) in
  on_message (rt := reference_runtime) (fun _ => None)
      "2024-05-01 10:00:00" true Oracle.BadStatus old = (old, Replied NotUnderstood)
  /\ on_message (rt := reference_runtime) (fun _ => None)
      "2024-05-01 10:00:00" true empty old = (old, Replied NotUnderstood).
Proof.
  intros old empty. split;
    apply (no_record_not_understood (rt := reference_runtime)); intros; reflexivity.
Defined.

(** X7: a message changes the ledger only when the body of the oracle's
    answer has the text, the text decodes to a [dict], the validator accepts
    its amount and the store is reachable. *)
Theorem ledger_changes_only_on_record {rt : PyRuntime}
    (loads : string -> option json) (timestamp : string) (store_up : bool)
    (r : Oracle.http_result) (sheet : ledger) :
  (on_message loads timestamp store_up r sheet).1 <> sheet ->
  exists data s fields,
    r = Oracle.Body data
    /\ Oracle.response_text data = Some s
    /\ loads s = Some (JObj fields)
    /\ rejects (get fields "amount" (JInt 0)) = false
    /\ store_up = true.
Proof.
  unfold on_message. rewrite handle_message_ledger, parse_expense_text.
  destruct r as [data| |]; try (intros H; contradiction H; reflexivity).
  destruct (Oracle.response_text data) as [s|] eqn:Hs; simpl;
    [|intros H; contradiction H; reflexivity].
  destruct (loads s) as [[| | | | | |fields]|] eqn:Hl; simpl;
    try (intros H; contradiction H; reflexivity).
  destruct (json_lower _); [|intros H; contradiction H; reflexivity].
  destruct (rejects _) eqn:Hr; [intros H; contradiction H; reflexivity|].
  destruct store_up; [|intros H; contradiction H; reflexivity].
  intros _. exists data, s, fields. auto.
Qed.

(** X7 at the answer whose text is the JSON object with the amount 150. *)
Lemma ledger_changes_only_on_record_witness :
  let q := String "034"%char "" in
  let text := "{" +:+ q +:+ "amount" +:+ q +:+ ": 150}" in
  let loads s :=
    if String.eqb s text then Some (JObj {[ "amount" := JInt 150 ]}) else None in
  let body :=
    Oracle.Body (JObj {[ "candidates" :=
      JArr [JObj {[ "content" :=
        JObj {[ "parts" := JArr [JObj {[ "text" := JStr text ]}] ]} ]}] ]}) in
  on_message (rt := reference_runtime) loads "2024-05-01 10:00:00" true body [] =
    ([[JStr "2024-05-01 10:00:00"; JStr "N/A"; JStr "N/A"; JInt 150; JStr "expense"]],
     Replied (Logged "expense" (JStr "N/A") "150.00"))
  /\ exists data s fields,
       body = Oracle.Body data
       /\ Oracle.response_text data = Some s
       /\ loads s = Some (JObj fields)
       /\ rejects (get fields "amount" (JInt 0)) = false.
Proof.
  intros q text loads body.
  assert (Hrun : on_message (rt := reference_runtime) loads
                   "2024-05-01 10:00:00" true body [] =
                 ([[JStr "2024-05-01 10:00:00"; JStr "N/A"; JStr "N/A"; JInt 150;
                    JStr "expense"]],
                  Replied (Logged "expense" (JStr "N/A") "150.00")))
    by (vm_compute; reflexivity).
  split; [exact Hrun|].
  destruct (ledger_changes_only_on_record (rt := reference_runtime) loads
              "2024-05-01 10:00:00" true body [])
    as (data & s & fields & H1 & H2 & H3 & H4 & _).
  { rewrite Hrun. discriminate. }
  exists data, s, fields. auto.
Defined.

Section Months.
Context {rt : PyRuntime}.

(** The loop body of the breakdown on a row that ends the loop, and on one
    that does not. *)
Lemma breakdown_row_abort (md : gmap string month_entry) (r : row) (e : exn) :
  aborts r = Some e ->
  breakdown_row md r = Raise e /\ (e = AttributeError \/ e = OverflowError).
Proof.
  unfold aborts. rewrite breakdown_row_spec.
  destruct (row_category_cases r) as [[c ->]| ->].
  - destruct (row_amount r) as [a|[]]; try discriminate. intros [= <-]. auto.
  - intros [= <-]. auto.
Qed.

Lemma breakdown_row_continues (md : gmap string month_entry) (r : row) :
  aborts r = None ->
  breakdown_row md r =
    match survivor r with
    | None => Ok md
    | Some (key, name, category, amount, kind) =>
        let entry := bucket md key name in
        if String.eqb kind "expense" then
          Ok (<[key := add_expense category amount entry]> md)
        else if String.eqb kind "income" then
          Ok (<[key := add_income amount entry]> md)
        else Ok (<[key := entry]> md)
    end.
Proof.
  unfold aborts. rewrite breakdown_row_spec.
  destruct (row_category r) as [c|]; [|discriminate].
  destruct (row_amount r) as [x|[]]; try discriminate; reflexivity.
Qed.

Lemma breakdown_row_ok (md : gmap string month_entry) (r : row) :
  aborts r = None -> exists md', breakdown_row md r = Ok md'.
Proof.
  intros H. rewrite (breakdown_row_continues _ _ H).
  destruct (survivor r) as [[[[[k name] c] a] kind]|]; [|eauto]. simpl.
  destruct (String.eqb kind "expense"); [eauto|].
  destruct (String.eqb kind "income"); eauto.
Qed.

Lemma breakdown_row_some (md md' : gmap string month_entry) (r : row) :
  breakdown_row md r = Ok md' -> aborts r = None.
Proof.
  destruct (aborts r) as [e|] eqn:H; [|reflexivity].
  destruct (breakdown_row_abort md r e H) as [-> _]. discriminate.
Qed.

(** The loop of the breakdown ends with the exception of the first row
    that has one, and with a table when no row has one. *)
Lemma breakdown_loop (records : list row) (md : gmap string month_entry) :
  match first_abort records with
  | Some e => for_each breakdown_row records md = Raise e
              /\ (e = AttributeError \/ e = OverflowError)
  | None => exists md', for_each breakdown_row records md = Ok md'
  end.
Proof.
  revert md. unfold first_abort.
  induction records as [|r records IH]; intros md; simpl; [eauto|].
  destruct (aborts r) as [e|] eqn:Hr; simpl.
  - destruct (breakdown_row_abort md r e Hr) as [-> He]. auto.
  - destruct (breakdown_row_ok md r Hr) as [md' ->]. simpl. apply IH.
Qed.

(** A row that passes no check and raises nothing leaves the table. *)
Lemma breakdown_row_skip (md : gmap string month_entry) (r : row) :
  survivor r = None -> aborts r = None -> breakdown_row md r = Ok md.
Proof. intros Hs Ha. rewrite (breakdown_row_continues _ _ Ha), Hs. reflexivity. Qed.

(** The months of the table are those of the rows that pass the checks. *)
Lemma months_of_row (md md' : gmap string month_entry) (r : row) (key : string) :
  breakdown_row md r = Ok md' ->
  is_Some (md' !! key) <-> is_Some (md !! key) \/ month_of r = Some key.
Proof.
  intros H. pose proof (breakdown_row_some _ _ _ H) as Ha.
  rewrite (breakdown_row_continues _ _ Ha) in H. unfold month_of.
  destruct (survivor r) as [[[[[k name] c] a] kind]|].
  - assert (Hk : forall e, is_Some (<[k := e]> md !! key)
                           <-> is_Some (md !! key) \/ Some k = Some key).
    { intros e. rewrite lookup_insert_is_Some. split.
      - intros [->|[_ ?]]; auto.
      - intros [?|[= ->]]; [|auto]. destruct (decide (k = key)); auto. }
    simpl in H. destruct (String.eqb kind "expense");
      [|destruct (String.eqb kind "income")]; injection H as <-; apply Hk.
  - injection H as <-. split; [auto|]. intros [?|?]; [assumption|discriminate].
Qed.

Lemma months_of_breakdown (records : list row) (md : gmap string month_entry)
    (key : string) :
  breakdown_data records = Ok md ->
  is_Some (md !! key) <-> exists r, r ∈ records /\ month_of r = Some key.
Proof.
  revert md. induction records as [|r records IH] using rev_ind; intros md.
  - intros [= <-]. rewrite lookup_empty. split.
    + intros [? ?]. discriminate.
    + intros (r & Hr & _). inversion Hr.
  - unfold breakdown_data. rewrite for_each_snoc.
    destruct (for_each breakdown_row records ∅) as [md0|] eqn:H0; [|discriminate].
    simpl. intros Hrow. rewrite (months_of_row _ _ _ key Hrow), (IH md0 H0). split.
    + intros [(r' & Hin & Hm)|Hm].
      * exists r'. split; [|exact Hm]. apply elem_of_app. auto.
      * exists r. split; [|exact Hm]. apply elem_of_app. right. left.
    + intros (r' & Hin & Hm). apply elem_of_app in Hin as [Hin|Hin].
      * left. eauto.
      * right. apply list_elem_of_singleton in Hin. subst. exact Hm.
Qed.

(** The income of a month, row by row. *)
Lemma income_at_survivor (r : row) (k name c kind : string) (a : float) :
  survivor r = Some (k, name, c, a, kind) ->
  (forall key, key <> k -> income_at key r = None)
  /\ income_at k r =
       if negb (String.eqb kind "expense") && String.eqb kind "income"
       then Some a else None.
Proof.
  intros Hs. unfold income_at. rewrite Hs. split.
  - intros key Hne. apply not_eq_sym, String.eqb_neq in Hne. rewrite Hne. reflexivity.
  - rewrite String.eqb_refl. reflexivity.
Qed.

Lemma month_incomes_snoc (key : string) (records : list row) (r : row) :
  month_incomes key (records ++ [r]) =
    month_incomes key records ++ option_list (income_at key r).
Proof.
  unfold month_incomes. rewrite omap_app. simpl.
  destruct (income_at key r); reflexivity.
Qed.

Lemma income_of_row (records : list row) (md md' : gmap string month_entry) (r : row) :
  income_of records md ->
  breakdown_row md r = Ok md' ->
  income_of (records ++ [r]) md'.
Proof.
  intros Hinv H. pose proof (breakdown_row_some _ _ _ H) as Ha.
  rewrite (breakdown_row_continues _ _ Ha) in H.
  destruct (survivor r) as [[[[[k name] c] a] kind]|] eqn:Hs.
  2: { injection H as <-. intros key. specialize (Hinv key).
       rewrite month_incomes_snoc. unfold income_at. rewrite Hs. simpl.
       rewrite app_nil_r. exact Hinv. }
  destruct (income_at_survivor _ _ _ _ _ _ Hs) as [Hother Hat].
  assert (Hb : income (bucket md k name) = Float.sum (month_incomes k records)).
  { specialize (Hinv k). unfold bucket. destruct (md !! k); simpl; [exact Hinv|].
    rewrite Hinv. reflexivity. }
  assert (Hrest : forall e key, key <> k ->
            match <[k := e]> md !! key with
            | Some e' => income e' = Float.sum (month_incomes key (records ++ [r]))
            | None => month_incomes key (records ++ [r]) = []
            end).
  { intros e key Hne. rewrite lookup_insert_ne by congruence.
    rewrite month_incomes_snoc, (Hother key Hne), app_nil_r. apply Hinv. }
  simpl in H. destruct (String.eqb kind "expense") eqn:Hexp;
    [|destruct (String.eqb kind "income") eqn:Hinc]; injection H as <-;
    intros key; (destruct (decide (key = k)) as [->|Hne]; [|apply Hrest; exact Hne]);
    rewrite lookup_insert_eq, month_incomes_snoc, Hat; simpl.
  - rewrite app_nil_r. exact Hb.
  - rewrite sum_snoc, Hb. reflexivity.
  - rewrite app_nil_r. exact Hb.
Qed.

Lemma income_of_breakdown (records : list row) (md : gmap string month_entry) :
  breakdown_data records = Ok md -> income_of records md.
Proof.
  revert md. induction records as [|r records IH] using rev_ind; intros md.
  - intros [= <-] key. rewrite lookup_empty. reflexivity.
  - unfold breakdown_data. rewrite for_each_snoc.
    destruct (for_each breakdown_row records ∅) as [md0|] eqn:H0; [|discriminate].
    simpl. intros Hrow. eapply income_of_row; [|exact Hrow]. apply IH. exact H0.
Qed.

End Months.

(** The report of a table: the header, then the sections in sorted order. *)
Lemma breakdown_msg_sections (md : gmap string month_entry) :
  breakdown_msg md =
    Ok (breakdown_header +:+ join ((fun m => month_section m.2) <$> sorted_items md)).
Proof.
  unfold breakdown_msg. rewrite sorted_keys_items. apply render_loop.
  intros k e Hin. apply elem_of_map_to_list.
  rewrite <- (proj1 (sorted_items_spec md)). exact Hin.
Qed.

Lemma sorted_keys_nil {V} (d : gmap string V) : sorted_keys d = [] <-> d = ∅.
Proof.
  unfold sorted_keys. split.
  - intros H. apply map_to_list_empty_iff.
    assert (Hp : (map_to_list d).*1 ≡ₚ []) by (rewrite <- H; symmetry; apply merge_sort_Permutation).
    apply Permutation_nil_r in Hp. destruct (map_to_list d); [reflexivity|discriminate].
  - intros ->. rewrite map_to_list_empty. reflexivity.
Qed.

(** The reply of the breakdown on a ledger that is not empty. *)
Lemma breakdown_reply {rt : PyRuntime} (records : list row) :
  records <> [] ->
  monthly_breakdown_summary records =
    match breakdown_data records with
    | Raise e => ErrorText "Error generating breakdown summary: " e
    | Ok md =>
        if decide (md = ∅) then
          Text "No valid financial records found to generate a breakdown."
        else
          Text (breakdown_header +:+
                join ((fun m => month_section m.2) <$> sorted_items md))
    end.
Proof.
  intros Hne. unfold monthly_breakdown_summary.
  destruct records as [|r records]; [contradiction|].
  destruct (breakdown_data (r :: records)) as [md|e]; [|reflexivity].
  rewrite breakdown_msg_sections.
  destruct (decide (md = ∅)) as [->|Hmd]; [reflexivity|].
  destruct (sorted_keys md) eqn:Hk; [|reflexivity].
  apply sorted_keys_nil in Hk. contradiction.
Qed.

(** X8: a row that the breakdown skips (its amount is zero or negative or
    does not parse, or its timestamp is missing, empty or unparsable) and
    that raises nothing can be taken out of the ledger: the table of months
    is the same, and so is the reply as long as the ledger without the row
    is not empty. *)
Theorem skipped_row_irrelevant {rt : PyRuntime} (r : row) (before after : list row) :
  survivor r = None ->
  aborts r = None ->
  breakdown_data (before ++ r :: after) = breakdown_data (before ++ after)
  /\ (before ++ after <> [] ->
      monthly_breakdown_summary (before ++ r :: after)
      = monthly_breakdown_summary (before ++ after)).
Proof.
  intros Hs Ha.
  assert (Hd : breakdown_data (before ++ r :: after) = breakdown_data (before ++ after)).
  { unfold breakdown_data. rewrite !for_each_app.
    destruct (for_each breakdown_row before ∅) as [md|e]; simpl; [|reflexivity].
    rewrite (breakdown_row_skip _ _ Hs Ha). reflexivity. }
  split; [exact Hd|]. intros Hne.
  rewrite !breakdown_reply, Hd; [reflexivity|exact Hne|].
  destruct before; discriminate.
Qed.

(** X8 at a row with the amount 0 between two expenses. *)
Lemma skipped_row_irrelevant_witness :
  let r1 := mk_row "2024-05-01 10:00:00" "tea" "Groceries" (CInt 20) "expense" in
  let r := mk_row "2024-05-02 10:00:00" "nothing" "Groceries" (CInt 0) "expense" in
  let r2 := mk_row "2024-06-01 10:00:00" "rent" "Rent" (CInt 900) "expense" in
  monthly_breakdown_summary (rt := reference_runtime) ([r1] ++ r :: [r2])
  = monthly_breakdown_summary (rt := reference_runtime) ([r1] ++ [r2]).
Proof.
  intros r1 r r2.
  apply (skipped_row_irrelevant (rt := reference_runtime) r [r1] [r2]);
    [vm_compute; reflexivity|vm_compute; reflexivity|discriminate].
Defined.

(** X9: the breakdown answers with its error message exactly when some row
    has a category that is no string or an integer amount beyond the range
    of a double; the message carries the exception of the first such row,
    [AttributeError] or [OverflowError].  On every other ledger the reply
    is a text: building and rendering the table raise nothing. *)
Theorem breakdown_error_iff {rt : PyRuntime} (records : list row) :
  match first_abort records with
  | Some e =>
      monthly_breakdown_summary records =
        ErrorText "Error generating breakdown summary: " e
      /\ (e = AttributeError \/ e = OverflowError)
  | None => exists text, monthly_breakdown_summary records = Text text
  end.
Proof.
  destruct records as [|r records]; [simpl; eauto|].
  rewrite breakdown_reply by discriminate.
  pose proof (breakdown_loop (r :: records) ∅) as H. unfold breakdown_data.
  destruct (first_abort (r :: records)) as [e|].
  - destruct H as [-> He]. auto.
  - destruct H as [md ->]. destruct (decide (md = ∅)); eauto.
Qed.

(** X10: the report has a section for a month exactly when some row of the
    ledger passes the checks of the loop with that month key: a month
    without such a row has no bucket, and one surviving row of any kind is
    enough for its month to have one. *)
Theorem month_listed_iff {rt : PyRuntime} (records : list row)
    (monthly_data : gmap string month_entry) (key : string) :
  breakdown_data records = Ok monthly_data ->
  (is_Some (monthly_data !! key) <-> exists r, r ∈ records /\ month_of r = Some key)
  /\ (key ∈ sorted_keys monthly_data <-> exists r, r ∈ records /\ month_of r = Some key).
Proof.
  intros H. pose proof (months_of_breakdown records monthly_data key H) as Hm.
  split; [exact Hm|]. rewrite <- Hm. unfold sorted_keys.
  rewrite merge_sort_Permutation, list_elem_of_fmap. split.
  - intros ([k e] & -> & Hin). apply elem_of_map_to_list in Hin. eauto.
  - intros [e He]. exists (key, e). split; [reflexivity|]. apply elem_of_map_to_list. exact He.
Qed.

(** X10 at a ledger with an income in May and a row of unknown kind in
    June: both months are listed, July is not. *)
Lemma month_listed_iff_witness :
  let records :=
    [mk_row "2024-05-01 10:00:00" "pay" "Income" (CInt 50) "income";
     mk_row "2024-06-03 12:00:00" "moved" "Savings" (CInt 20) "transfer"] in
  exists md,
    breakdown_data (rt := reference_runtime) records = Ok md
    /\ sorted_keys md = ["2024-05"; "2024-06"]
    /\ ~ exists r, r ∈ records /\ month_of (rt := reference_runtime) r = Some "2024-07".
Proof.
  intros records. eexists. split; [vm_compute; reflexivity|].
  split; [vm_compute; reflexivity|].
  match goal with
  | |- ~ ?P =>
      intros HP;
      assert (Hd : exists md, breakdown_data (rt := reference_runtime) records = Ok md
                              /\ sorted_keys md = ["2024-05"; "2024-06"])
        by (eexists; split; vm_compute; reflexivity);
      destruct Hd as (md & Hd & Hk);
      apply (month_listed_iff (rt := reference_runtime) records md "2024-07" Hd) in HP;
      rewrite Hk in HP
  end.
  repeat (apply elem_of_cons in HP as [HP|HP]; [discriminate|]). inversion HP.
Defined.

(** X11: on a ledger that is not empty and on which the loop raises
    nothing, the reply is the fixed "no valid financial records" message
    exactly when no row passes the checks of the loop; otherwise it is the
    report.  (The empty ledger has a message of its own.) *)
Theorem no_data_iff {rt : PyRuntime} (records : list row)
    (monthly_data : gmap string month_entry) :
  records <> [] ->
  breakdown_data records = Ok monthly_data ->
  monthly_breakdown_summary records =
    Text "No valid financial records found to generate a breakdown."
  <-> forall r, r ∈ records -> survivor r = None.
Proof.
  intros Hne Hd. rewrite (breakdown_reply _ Hne), Hd.
  assert (Hempty : monthly_data = ∅ <-> forall r, r ∈ records -> survivor r = None).
  { split.
    - intros -> r Hin. destruct (survivor r) as [[[[[k name] c] a] kind]|] eqn:Hs;
        [|reflexivity].
      assert (Hk : is_Some ((∅ : gmap string month_entry) !! k)).
      { apply (months_of_breakdown records ∅ k Hd). exists r. split; [exact Hin|].
        unfold month_of. rewrite Hs. reflexivity. }
      rewrite lookup_empty in Hk. destruct Hk. discriminate.
    - intros Hall. apply map_eq. intros k. rewrite lookup_empty.
      destruct (monthly_data !! k) as [e|] eqn:Hk; [|reflexivity].
      assert (Hs : is_Some (monthly_data !! k)) by (rewrite Hk; eauto).
      apply (months_of_breakdown records monthly_data k Hd) in Hs as (r & Hin & Hm).
      unfold month_of in Hm. rewrite (Hall r Hin) in Hm. discriminate. }
  destruct (decide (monthly_data = ∅)) as [He|He].
  - split; [intros _; apply Hempty, He|reflexivity].
  - split; [|intros Hall; contradiction He; apply Hempty, Hall].
    cbv [breakdown_header NL String.append]. discriminate.
Qed.

(** X11 at a ledger whose only row has a negative amount. *)
Lemma no_data_iff_witness :
  let records := [mk_row "2024-05-01 10:00:00" "refund" "Rent" (CInt (-5)) "expense"] in
  monthly_breakdown_summary (rt := reference_runtime) records =
    Text "No valid financial records found to generate a breakdown."
  /\ monthly_breakdown_summary (rt := reference_runtime) [] =
    Text "Your sheet is empty. No breakdown available.".
Proof.
  intros records. split; [|reflexivity].
  apply (no_data_iff (rt := reference_runtime) records ∅);
    [discriminate|vm_compute; reflexivity|].
  intros r Hin. apply list_elem_of_singleton in Hin. subst. vm_compute. reflexivity.
Defined.

(** X12: the income shown for a month is the float sum, in ledger order, of
    the amounts of the rows of kind "income" that pass the checks of the
    loop with that month key; rows of kind "expense" and of any other kind
    leave it as it is. *)
Theorem bucket_income {rt : PyRuntime} (records : list row)
    (monthly_data : gmap string month_entry) (key : string) (e : month_entry) :
  breakdown_data records = Ok monthly_data ->
  monthly_data !! key = Some e ->
  income e = Float.sum (month_incomes key records).
Proof.
  intros Hd Hk. pose proof (income_of_breakdown records monthly_data Hd key) as H.
  rewrite Hk in H. exact H.
Qed.

(** X12 at a month with two incomes around an expense. *)
Lemma bucket_income_witness :
  let records :=
    [mk_row "2024-05-01 10:00:00" "pay" "Income" (CStr "1200.50") "income";
     mk_row "2024-05-15 09:00:00" "rice" "Groceries" (CInt 30) "expense";
     mk_row "2024-05-20 09:00:00" "gift" "Income" (CInt 100) "INCOME"] in
  exists e,
    breakdown_data (rt := reference_runtime) records = Ok {[ "2024-05" := e ]}
    /\ income e = Float.sum (month_incomes (rt := reference_runtime) "2024-05" records)
    /\ Float.format_2f (income e) = "1300.50".
Proof.
  intros records. eexists. split; [vm_compute; reflexivity|].
  match goal with
  | |- income ?e = _ /\ _ =>
      split;
      [apply (bucket_income (rt := reference_runtime) records {[ "2024-05" := e ]});
       vm_compute; reflexivity|vm_compute; reflexivity]
  end.
Defined.

Lemma add_nan_r (x : float) : Float.add x S754_nan = S754_nan.
Proof. destruct x; reflexivity. Qed.

Lemma sum_from_nan (l : list float) : fold_left Float.add l S754_nan = S754_nan.
Proof. induction l as [|x l IH]; [reflexivity|exact IH]. Qed.

Lemma sum_with_nan (l : list float) (acc : float) :
  S754_nan ∈ l -> fold_left Float.add l acc = S754_nan.
Proof.
  revert acc. induction l as [|x l IH]; intros acc Hin; [inversion Hin|].
  apply elem_of_cons in Hin as [<-|Hin]; simpl.
  - rewrite add_nan_r. apply sum_from_nan.
  - apply IH. exact Hin.
Qed.

Lemma sub_nan_r (x : float) : Float.sub x S754_nan = S754_nan.
Proof. destruct x; reflexivity. Qed.

Lemma sub_nan_l (x : float) : Float.sub S754_nan x = S754_nan.
Proof. reflexivity. Qed.

(** X13: one NaN is enough to lose the totals of the summary.  When no
    amount overflows and the amount of some row of kind "expense" is NaN,
    the reply shows [nan] for the total expense and for the balance; with
    a NaN among the incomes it shows [nan] for the total income and for the
    balance. *)
Theorem nan_poisons_summary {rt : PyRuntime} (records : list row) :
  existsb overflows records = false ->
  (S754_nan ∈ amounts_of "expense" records ->
   summary records =
     Text ("📊 Expense Summary:" +:+ NL +:+
           "Total Income: ₹" +:+
             Float.format_2f (Float.sum (amounts_of "income" records)) +:+ NL +:+
           "Total Expense: ₹nan" +:+ NL +:+ "Balance: ₹nan"))
  /\ (S754_nan ∈ amounts_of "income" records ->
      summary records =
        Text ("📊 Expense Summary:" +:+ NL +:+
              "Total Income: ₹nan" +:+ NL +:+
              "Total Expense: ₹" +:+
                Float.format_2f (Float.sum (amounts_of "expense" records)) +:+ NL +:+
              "Balance: ₹nan")).
Proof.
  intros Hov. unfold summary, summary_totals. rewrite summary_loop, Hov.
  unfold summary_msg. simpl. split; intros Hin.
  - rewrite (sum_with_nan _ Float.zero Hin), sub_nan_r. reflexivity.
  - rewrite (sum_with_nan _ Float.zero Hin). reflexivity.
Qed.

(** X13 at a ledger with the amount NaN in an expense row. *)
Lemma nan_poisons_summary_witness :
  let records :=
    [mk_row "2024-05-01 10:00:00" "pay" "Income" (CInt 50) "income";
     mk_row "2024-05-02 10:00:00" "typo" "Rent" (CFloat S754_nan) "expense";
     mk_row "2024-05-03 10:00:00" "tea" "Groceries" (CInt 20) "expense"] in
  summary (rt := reference_runtime) records =
    Text ("📊 Expense Summary:" +:+ NL +:+ "Total Income: ₹50.00" +:+ NL +:+
          "Total Expense: ₹nan" +:+ NL +:+ "Balance: ₹nan").
Proof.
  intros records.
  destruct (nan_poisons_summary (rt := reference_runtime) records) as [H _];
    [vm_compute; reflexivity|].
  rewrite H; [vm_compute; reflexivity|].
  vm_compute. left.
Defined.

(** X14: the guard [amount <= 0] of the breakdown lets NaN through: when an
    expense row with the amount NaN passes the other checks, the expense
    total of its month is NaN from then on, and the section of the month
    shows [nan] for the expense total and for the balance. *)
Theorem nan_poisons_month {rt : PyRuntime} (records : list row)
    (monthly_data : gmap string month_entry) (key : string) (e : month_entry) :
  breakdown_data records = Ok monthly_data ->
  monthly_data !! key = Some e ->
  S754_nan ∈ month_expenses key records ->
  total_monthly_expense e = S754_nan
  /\ totals_block e =
       "Total Monthly Expense: ₹nan" +:+ NL +:+ "Monthly Balance: ₹nan" +:+ NL +:+ NL.
Proof.
  intros Hd Hk Hin. pose proof (table_of_breakdown records monthly_data Hd key) as H.
  rewrite Hk in H. destruct H as (_ & Ht & _).
  assert (Hnan : total_monthly_expense e = S754_nan).
  { rewrite Ht. apply sum_with_nan. exact Hin. }
  split; [exact Hnan|]. unfold totals_block. rewrite Hnan, sub_nan_r. reflexivity.
Qed.

(** X14 at a month with an expense whose amount is NaN. *)
Lemma nan_poisons_month_witness :
  let records :=
    [mk_row "2024-05-01 10:00:00" "tea" "Groceries" (CInt 20) "expense";
     mk_row "2024-05-02 10:00:00" "typo" "Rent" (CFloat S754_nan) "expense"] in
  exists e,
    breakdown_data (rt := reference_runtime) records = Ok {[ "2024-05" := e ]}
    /\ total_monthly_expense e = S754_nan
    /\ Float.format_2f <$> expenses e = <["Groceries" := "20.00"]> {[ "Rent" := "nan" ]}.
Proof.
  intros records. eexists. split; [vm_compute; reflexivity|].
  match goal with
  | |- total_monthly_expense ?e = _ /\ _ =>
      split;
      [apply (nan_poisons_month (rt := reference_runtime) records
                {[ "2024-05" := e ]} "2024-05" e);
       [vm_compute; reflexivity|vm_compute; reflexivity|vm_compute; right; left]
      |vm_compute; reflexivity]
  end.
Defined.

Section OneMonth.
Context {rt : PyRuntime}.

(** A row that passes the checks brings its own amount and kind. *)
Lemma survivor_amount (r : row) (k name c kind : string) (a : float) :
  survivor r = Some (k, name, c, a, kind) ->
  row_amount r = Ok a /\ kind = row_kind r.
Proof.
  unfold survivor.
  destruct (row_category r) as [c0|]; [|discriminate].
  destruct (row_amount r) as [a0|]; [|discriminate].
  destruct (r !! "timestamp") as [ts|]; [|discriminate].
  destruct (falsy ts || Float.leb a0 Float.zero); [discriminate|].
  destruct (parse_timestamp ts); [|discriminate].
  intros [= <- <- <- <- <-]. auto.
Qed.

(** When every row passes the checks with the month [key], the amounts
    that the breakdown adds for the month are those that the summary adds. *)
Lemma one_month_amounts (key : string) (records : list row) :
  (forall r, r ∈ records -> month_of r = Some key) ->
  month_expenses key records = amounts_of "expense" records
  /\ month_incomes key records = amounts_of "income" records
  /\ existsb overflows records = false.
Proof.
  induction records as [|r records IH]; intros H; [auto|].
  destruct IH as (IHe & IHi & IHo); [intros r' Hr'; apply H; right; exact Hr'|].
  assert (Hr : month_of r = Some key) by (apply H; left).
  unfold month_of in Hr.
  destruct (survivor r) as [[[[[k name] c] a] kind]|] eqn:Hs; [|discriminate].
  injection Hr as ->.
  destruct (survivor_amount _ _ _ _ _ _ Hs) as [Ha ->].
  unfold month_expenses, month_incomes, amounts_of in *. simpl.
  unfold expense_at at 1, income_at at 1, overflows at 1.
  rewrite Hs, Ha, String.eqb_refl, IHo. simpl.
  destruct (String.eqb (row_kind r) "expense") eqn:He; simpl.
  - apply String.eqb_eq in He. rewrite He. simpl.
    repeat split; [f_equal; exact IHe|exact IHi].
  - destruct (String.eqb (row_kind r) "income"); simpl;
      repeat split; first [exact IHe | exact IHi | f_equal; exact IHi].
Qed.

End OneMonth.

(** X15: the two aggregations agree on a ledger of one month.  When every
    row of the ledger passes the checks of the breakdown with the same
    month key, the expense total and the income total of that month's
    bucket are, bit for bit, the total expense and the total income of the
    global summary. *)
Theorem one_month_totals {rt : PyRuntime} (records : list row)
    (monthly_data : gmap string month_entry) (key : string) (e : month_entry) :
  (forall r, r ∈ records -> month_of r = Some key) ->
  breakdown_data records = Ok monthly_data ->
  monthly_data !! key = Some e ->
  summary_totals records =
    Ok {| total_expense := total_monthly_expense e;
          total_income := total_monthly_income e |}.
Proof.
  intros Hall Hd Hk.
  destruct (one_month_amounts key records Hall) as (He & Hi & Ho).
  pose proof (table_of_breakdown records monthly_data Hd key) as Ht.
  pose proof (income_of_breakdown records monthly_data Hd key) as Hinc.
  rewrite Hk in Ht, Hinc. destruct Ht as (Hsame & Hexp & _).
  unfold summary_totals. rewrite summary_loop, Ho.
  rewrite Hexp, <- Hsame, Hinc, He, Hi. reflexivity.
Qed.

(** X15 at a ledger of May 2024. *)
Lemma one_month_totals_witness :
  let records :=
    [mk_row "2024-05-01 10:00:00" "rent" "Rent" (CStr "0.1") "expense";
     mk_row "2024-05-02 10:00:00" "pay" "Income" (CInt 50) "income";
     mk_row "2024-05-03 10:00:00" "tea" "Groceries" (CStr "0.2") "expense"] in
  exists e,
    breakdown_data (rt := reference_runtime) records = Ok {[ "2024-05" := e ]}
    /\ summary_totals (rt := reference_runtime) records =
         Ok {| total_expense := total_monthly_expense e;
               total_income := total_monthly_income e |}.
Proof.
  intros records. eexists. split; [vm_compute; reflexivity|].
  match goal with
  | |- _ = Ok {| total_expense := total_monthly_expense ?e; total_income := _ |} =>
      apply (one_month_totals (rt := reference_runtime) records
               {[ "2024-05" := e ]} "2024-05" e)
  end.
  - intros r Hin.
    repeat (apply elem_of_cons in Hin as [->|Hin]; [vm_compute; reflexivity|]).
    inversion Hin.
  - vm_compute. reflexivity.
  - vm_compute. reflexivity.
Defined.
